(** * The platform-view service protocol of the shell

    A shallow embedding of [shell/common/platform_view_service_protocol.cc]:
    the parameter lookup, the error responses, the view descriptors and the
    five service-protocol handlers, followed by the properties proved of
    them.

    Conventions of the embedding.
    - A C string ([const char*] that is not NULL) is the [string] of its
      bytes before the terminator, none of which is the zero byte; a
      nullable [const char*] is an [option string]. A [std::string] is the
      [string] of its bytes, among which there may be zero bytes: [nul_free]
      tells the two apart, and [c_str] reads a [std::string] as a C string.
    - [uintptr_t] and [unsigned long long] are 64-bit and live in [N];
      [intptr_t], [int64_t] and [Dart_Port] live in [Z].
    - An array passed with its element count ([const char** param_keys],
      [intptr_t num_params]) is a [list] and the count; reading an index the
      list does not have is a [Fault].
    - A handler runs in a small state-and-error monad: the state is the
      sequence of strings stored through [json_object], oldest first.
    - Posting a closure to the GPU or UI thread and waiting on the latch
      runs the closure to completion before the handler goes on, so the
      closure is called in place. *)

From Stdlib Require Import ZArith NArith String Ascii DecimalString Lia.
From stdpp Require Import gmap strings list.

Local Open Scope Z_scope.

(* ===================================================================== *)
(** * Faults and the two monads *)
(* ===================================================================== *)

(** What stops a handler before it returns: the two exceptions
    [std::stoull] throws, a dereferenced null pointer, a read past the end
    of an array. *)
Inductive fault : Type :=
  | invalid_argument
  | out_of_range
  | null_dereference
  | out_of_bounds.

Inductive result (A : Type) : Type :=
  | Ok (a : A)
  | Fault (f : fault).
Arguments Ok {A} a.
Arguments Fault {A} f.

#[global] Instance result_ret : MRet result := fun A a => Ok a.
#[global] Instance result_bind : MBind result := fun A B k r =>
  match r with
  | Ok a => k a
  | Fault f => Fault f
  end.

(** A handler threads the strings stored through [json_object]. *)
Definition Handler (A : Type) : Type := list string → result (A * list string).

#[global] Instance Handler_ret : MRet Handler := fun A a js => Ok (a, js).
#[global] Instance Handler_bind : MBind Handler := fun A B k m js =>
  match m js with
  | Ok (a, js') => k a js'
  | Fault f => Fault f
  end.

(** [s] holds no zero byte: as a [std::string] it has the bytes of a C
    string. *)
Fixpoint nul_free (s : string) : bool :=
  match s with
  | String c s' => negb (Ascii.eqb c "000") && nul_free s'
  | EmptyString => true
  end.

(** [s.c_str()], read as a C string: the bytes of [s] before its first
    zero byte. *)
Fixpoint c_str (s : string) : string :=
  match s with
  | String c s' => if Ascii.eqb c "000" then EmptyString else String c (c_str s')
  | EmptyString => EmptyString
  end.

(** [*json_object = strdup(p)], where [p] points at the bytes of
    [response] with a terminator after them, as [response.str().c_str()]
    does: the copy is that of a C string, so it ends where the first zero
    byte of [response] is, if there is one. *)
Definition store_json (response : string) : Handler unit := fun js =>
  Ok (tt, js ++ [c_str response]).

(** A pure computation that may fault, run inside a handler. *)
Definition lift {A : Type} (r : result A) : Handler A := fun js =>
  match r with
  | Ok a => Ok (a, js)
  | Fault f => Fault f
  end.

(** [a[i]] on an array of [length a] elements. *)
Definition array_read {A : Type} (a : list A) (i : Z) : result A :=
  if i <? 0 then Fault out_of_bounds
  else match a !! Z.to_nat i with
       | Some x => Ok x
       | None => Fault out_of_bounds
       end.

(* ===================================================================== *)
(** * Strings, numbers and the C library *)
(* ===================================================================== *)

(** [strcmp]: only the sign of the result is specified; bytes compare as
    [unsigned char], which is the order of [String.compare]. *)
Definition strcmp (s1 s2 : string) : Z :=
  match String.compare s1 s2 with
  | Eq => 0
  | Lt => -1
  | Gt => 1
  end.

(** [strncmp]: [strcmp] on at most the first [n] bytes of each string. *)
Definition strncmp (s1 s2 : string) (n : nat) : Z :=
  strcmp (substring 0 n s1) (substring 0 n s2).

(** [s + n] for a C string [s] with at least [n] bytes. *)
Fixpoint advance (n : nat) (s : string) : string :=
  match n, s with
  | S n', String _ s' => advance n' s'
  | _, _ => s
  end.

(** [std::to_string] of a signed integer, and [operator<<] of one on a
    stream in decimal mode. *)
Definition to_string (z : Z) : string :=
  DecimalString.NilZero.string_of_int (Z.to_int z).

(** One lower-case hexadecimal digit. *)
Definition hex_char (d : N) : ascii :=
  if (d <? 10)%N then ascii_of_N (48 + d) else ascii_of_N (87 + d).

(** The digits of [n], most significant first, in front of [acc]; [digits]
    bounds their number. *)
Fixpoint hex_digits (digits : nat) (n : N) (acc : string) : string :=
  match digits with
  | O => acc
  | S digits' =>
      let acc' := String (hex_char (n mod 16)) acc in
      if (n / 16 =? 0)%N then acc' else hex_digits digits' (n / 16) acc'
  end.

(** [operator<<] of a [uintptr_t] on a stream in [std::hex] mode: lower
    case, no prefix, no padding, at most sixteen digits. *)
Definition hex (n : N) : string := hex_digits 16 n EmptyString.

(** [isspace] in the C locale. *)
Definition isspace (c : ascii) : bool :=
  let n := N_of_ascii c in
  ((n =? 32) || ((9 <=? n) && (n <=? 13)))%N.

(** The value of a hexadecimal digit, either case. *)
Definition hex_value (c : ascii) : option N :=
  let n := N_of_ascii c in
  if ((48 <=? n) && (n <=? 57))%N then Some (n - 48)%N
  else if ((97 <=? n) && (n <=? 102))%N then Some (n - 87)%N
  else if ((65 <=? n) && (n <=? 70))%N then Some (n - 55)%N
  else None.

Fixpoint skip_spaces (s : string) : string :=
  match s with
  | String c s' => if isspace c then skip_spaces s' else s
  | EmptyString => s
  end.

(** The longest run of hexadecimal digits at the head of [s]: how many
    there are and the number they denote after [acc]. *)
Fixpoint scan_hex (s : string) (count : nat) (acc : N) : nat * N :=
  match s with
  | String c s' =>
      match hex_value c with
      | Some d => scan_hex s' (S count) (16 * acc + d)%N
      | None => (count, acc)
      end
  | EmptyString => (count, acc)
  end.

(** An optional [0x] or [0X], taken only when a hexadecimal digit follows. *)
Definition skip_0x (s : string) : string :=
  match s with
  | String c0 (String c1 (String c2 s')) =>
      if (Ascii.eqb c0 "0" && (Ascii.eqb c1 "x" || Ascii.eqb c1 "X"))%bool
      then match hex_value c2 with
           | Some _ => String c2 s'
           | None => s
           end
      else s
  | _ => s
  end.

Definition ULLONG_MAX : N := 2 ^ 64 - 1.

(** What [strtoull(s, &end, 16)] reports: whether any conversion was made
    ([end != s]), whether [errno] was set to [ERANGE], and the value. *)
Record strtoull_result : Type := {
  converted : bool;
  erange : bool;
  value : N
}.

Definition strtoull16 (s : string) : strtoull_result :=
  let s1 := skip_spaces s in
  let '(negative, s2) :=
    match s1 with
    | String c s' =>
        if Ascii.eqb c "-" then (true, s')
        else if Ascii.eqb c "+" then (false, s')
        else (false, s1)
    | EmptyString => (false, s1)
    end in
  let '(count, v) := scan_hex (skip_0x s2) 0 0 in
  match count with
  | O => {| converted := false; erange := false; value := 0 |}
  | S _ =>
      if (ULLONG_MAX <? v)%N
      then {| converted := true; erange := true; value := ULLONG_MAX |}
      else {| converted := true; erange := false;
              value := if negative then ((2 ^ 64 - v) mod 2 ^ 64)%N else v |}
  end.

(** [std::stoull(str, nullptr, 16)]: [std::invalid_argument] when no
    conversion could be made, [std::out_of_range] when the value does not
    fit. *)
Definition stoull (str : string) : result N :=
  let r := strtoull16 str in
  if negb (converted r) then Fault invalid_argument
  else if erange r then Fault out_of_range
  else Ok (value r).

(** The string literals of the source are full of escaped double quotes;
    here they are written with an apostrophe for each of them (no literal of
    the source holds an apostrophe). *)
Fixpoint lit (s : string) : string :=
  match s with
  | String c s' => String (if Ascii.eqb c "'" then "034"%char else c) (lit s')
  | EmptyString => EmptyString
  end.

(* ===================================================================== *)
(** * Parameter lookup *)
(* ===================================================================== *)

Definition kViewIdPrefx : string := "_flutterView/".
Definition kViewIdPrefxLength : nat := String.length kViewIdPrefx.

(** The loop of [KeyIndex], entered at index [i] with [remaining]
    iterations left before [i] reaches [num_params]. *)
Fixpoint KeyIndex_loop (param_keys : list string) (key : string)
    (i : Z) (remaining : nat) : result Z :=
  match remaining with
  | O => Ok (-1)
  | S remaining' =>
      k ← array_read param_keys i;
      if strcmp k key =? 0 then Ok i
      else KeyIndex_loop param_keys key (i + 1) remaining'
  end.

Definition KeyIndex (param_keys : option (list string)) (num_params : Z)
    (key : string) : result Z :=
  match param_keys with
  | None => Ok (-1)
  | Some keys => KeyIndex_loop keys key 0 (Z.to_nat num_params)
  end.

Definition ValueForKey (param_keys : option (list string))
    (param_values : list string) (num_params : Z) (key : string)
    : result (option string) :=
  index ← KeyIndex param_keys num_params key;
  if index <? 0 then Ok None
  else v ← array_read param_values index; Ok (Some v).

(* ===================================================================== *)
(** * Error responses *)
(* ===================================================================== *)

Definition ErrorMissingParameter (name : string) : Handler bool :=
  let kInvalidParams := -32602 in
  let response := EmptyString in
  let response := response +:+ lit "{'code':" +:+ to_string kInvalidParams +:+ "," in
  let response := response +:+ lit "'message':'Invalid params'," in
  let response := response +:+ lit "'data': {'details': '" +:+ name +:+ lit "'}}" in
  store_json response;;
  mret false.

Definition ErrorBadParameter (name value : string) : Handler bool :=
  let kInvalidParams := -32602 in
  let response := EmptyString in
  let response := response +:+ lit "{'code':" +:+ to_string kInvalidParams +:+ "," in
  let response := response +:+ lit "'message':'Invalid params'," in
  let response := response +:+ lit "'data': {'details': 'parameter: " +:+ name
                           +:+ " has a bad " in
  let response := response +:+ "value: " +:+ value +:+ lit "'}}" in
  store_json response;;
  mret false.

Definition ErrorUnknownView (view_id : string) : Handler bool :=
  let kInvalidParams := -32602 in
  let response := EmptyString in
  let response := response +:+ lit "{'code':" +:+ to_string kInvalidParams +:+ "," in
  let response := response +:+ lit "'message':'Invalid params'," in
  let response := response +:+ lit "'data': {'details': 'view not found: "
                           +:+ view_id +:+ lit "'}}" in
  store_json response;;
  mret false.

Definition ErrorServer (message : string) : Handler bool :=
  let kServerError := -32000 in
  let response := EmptyString in
  let response := response +:+ lit "{'code':" +:+ to_string kServerError +:+ "," in
  let response := response +:+ lit "'message':'" +:+ message +:+ lit "'}" in
  store_json response;;
  mret false.

(* ===================================================================== *)
(** * View descriptors *)
(* ===================================================================== *)

(** Modelled from the spec: [ILLEGAL_PORT] is a constant of the Dart
    embedding API, whose header is not among the sources; it is the port
    that no isolate has, so that a view descriptor embeds a script-runtime
    reference only if one is attached. *)
Definition ILLEGAL_PORT : Z := 0.

Definition AppendIsolateRef (stream : string) (main_port : Z) (name : string)
    : string :=
  let stream := stream +:+ lit "{'type':'@Isolate','fixedId':true,'id':'isolates/" in
  let stream := stream +:+ to_string main_port +:+ lit "','name':'" +:+ name +:+ lit "'," in
  let stream := stream +:+ lit "'number':'" +:+ to_string main_port +:+ lit "'}" in
  stream.

Definition AppendFlutterView (stream : string) (view_id : N) (isolate_id : Z)
    (isolate_name : string) : string :=
  let stream := stream +:+ lit "{'type':'FlutterView', 'id': '" +:+ kViewIdPrefx +:+ "0x"
                       +:+ hex view_id +:+ lit "'" in
  let stream :=
    if negb (isolate_id =? ILLEGAL_PORT) then
      let stream := stream +:+ "," +:+ lit "'isolate':" in
      AppendIsolateRef stream isolate_id isolate_name
    else stream in
  stream +:+ "}".

(* ===================================================================== *)
(** * The shell and the graphics library, as the handlers see them *)
(* ===================================================================== *)

(** A layer tree is opaque here but for its frame size. *)
Record LayerTree : Type := {
  frame_size : Z * Z;
  root_layer : N
}.

(** [fml::WeakPtr<Rasterizer>] is an [option Rasterizer]. *)
Record Rasterizer : Type := {
  GetLastLayerTree : option LayerTree
}.

Record PlatformView : Type := {
  (** [reinterpret_cast<uintptr_t>(view)] *)
  view_address : N;
  (** [view->engine().GetUIIsolateMainPort()] *)
  GetUIIsolateMainPort : Z;
  (** [view->engine().GetUIIsolateName()] *)
  GetUIIsolateName : string;
  (** [view->rasterizer().GetWeakRasterizerPtr()] *)
  GetWeakRasterizerPtr : option Rasterizer
}.

(** The three out-parameters of [Shell::RunInPlatformView]. *)
Record RunResult : Type := {
  view_existed : bool;
  main_port : Z;
  isolate_name : string
}.

(** [Shell::Shared()]. [RunInPlatformView] takes the view, the three
    script locations and the out-parameters as the caller initialised
    them, and gives the out-parameters as it leaves them; what running the
    script does to the view is not followed. *)
Record Shell : Type := {
  platform_views : list PlatformView;
  RunInPlatformView : N → string → string → string → RunResult → RunResult
}.

Fixpoint iterate_views {A : Type} (views : list PlatformView)
    (iterator : PlatformView → A → bool * A) (captured : A) : A :=
  match views with
  | [] => captured
  | view :: views' =>
      let '(go_on, captured') := iterator view captured in
      if go_on then iterate_views views' iterator captured' else captured'
  end.

(** Modelled from the spec: [Shell::IteratePlatformViews] is defined in the
    shell, not in this file. It calls the iterator on the active views in
    turn and stops at the first view for which the iterator returns false;
    [captured] is what the lambda captures by reference. *)
Definition IteratePlatformViews {A : Type} (shell : Shell)
    (iterator : PlatformView → A → bool * A) (captured : A) : A :=
  iterate_views (platform_views shell) iterator captured.

(** A bitmap is empty or holds [width * height] N32 pixels, black but for
    the layer tree rastered onto them, if any. *)
Inductive SkBitmap : Type :=
  | empty_bitmap
  | N32Pixels (width height : Z) (rastered : option LayerTree).

(** A picture is the recording of a layer tree within a cull rectangle. *)
Inductive SkPicture : Type :=
  | recording (width height : Z) (rastered : LayerTree).

(** The operations of the graphics library whose results the handlers
    depend on. [SkEncodeBitmap] and [serialize] return [sk_sp<SkData>];
    only the former is tested for null by its caller. [SkBase64::Encode]
    writes characters of the base64 alphabet, none of which is the zero
    byte. *)
Record Skia : Type := {
  tryAllocN32Pixels : Z → Z → bool;
  SkEncodeBitmap : SkBitmap → option (list Byte.byte);
  serialize : SkPicture → list Byte.byte;
  SkBase64_Encode : list Byte.byte → string;
  SkBase64_Encode_text : ∀ data, nul_free (SkBase64_Encode data) = true
}.

(* ===================================================================== *)
(** * Registration *)
(* ===================================================================== *)

Definition kRunInViewExtensionName : string := "_flutter.runInView".
Definition kListViewsExtensionName : string := "_flutter.listViews".
Definition kScreenshotExtensionName : string := "_flutter.screenshot".
Definition kScreenshotSkpExtensionName : string := "_flutter.screenshotSkp".
Definition kFlushUIThreadTasksExtensionName : string := "_flutter.flushUIThreadTasks".

(** The handlers, as the function pointers given to the VM. *)
Inductive ServiceRequestCallback : Type :=
  | cb_ListViews
  | cb_Screenshot
  | cb_ScreenshotSkp
  | cb_RunInView
  | cb_FlushUIThreadTasks.

(** [Dart_RegisterRootServiceRequestCallback(name, callback, nullptr)] on
    the VM's table of root service extensions. *)
Definition Dart_RegisterRootServiceRequestCallback (name : string)
    (callback : ServiceRequestCallback)
    (table : gmap string ServiceRequestCallback)
    : gmap string ServiceRequestCallback :=
  <[name := callback]> table.

Definition RegisterHook (running_precompiled_code : bool)
    (table : gmap string ServiceRequestCallback)
    : gmap string ServiceRequestCallback :=
  let table := Dart_RegisterRootServiceRequestCallback
                 kListViewsExtensionName cb_ListViews table in
  let table := Dart_RegisterRootServiceRequestCallback
                 kScreenshotExtensionName cb_Screenshot table in
  let table := Dart_RegisterRootServiceRequestCallback
                 kScreenshotSkpExtensionName cb_ScreenshotSkp table in
  if running_precompiled_code then table
  else
    let table := Dart_RegisterRootServiceRequestCallback
                   kRunInViewExtensionName cb_RunInView table in
    let table := Dart_RegisterRootServiceRequestCallback
                   kFlushUIThreadTasksExtensionName cb_FlushUIThreadTasks table in
    table.

(* ===================================================================== *)
(** * RunInView *)
(* ===================================================================== *)

(** The out-parameters as [RunInView] declares them before the call. *)
Definition unset_result : RunResult :=
  {| view_existed := false;
     main_port := ILLEGAL_PORT;
     isolate_name := EmptyString |}.

(** The [if (!view_existed) ... else ...] that ends [RunInView]: [Some] of
    the handler's remainder when a branch returns, [None] when control
    leaves the statement and goes on to what follows it. *)
Definition RunInView_branch (view_id : string) (view_id_as_num : N)
    (out : RunResult) : option (Handler bool) :=
  if negb (view_existed out) then
    Some (ErrorUnknownView view_id)
  else
    Some (let response := EmptyString in
          let response := response +:+ lit "{'type':'Success'," +:+ lit "'view':" in
          let response := AppendFlutterView response view_id_as_num
                            (main_port out) (isolate_name out) in
          let response := response +:+ "}" in
          store_json response;;
          mret true).

(** [RunInView], with the statement that follows the branch left as a
    parameter. *)
Definition RunInView_with (trailing : Handler bool) (shell : Shell)
    (param_keys : option (list string)) (param_values : list string)
    (num_params : Z) : Handler bool :=
  view_id ← lift (ValueForKey param_keys param_values num_params "viewId");
  asset_directory ←
    lift (ValueForKey param_keys param_values num_params "assetDirectory");
  main_script ←
    lift (ValueForKey param_keys param_values num_params "mainScript");
  packages_file ←
    lift (ValueForKey param_keys param_values num_params "packagesFile");
  match view_id with
  | None => ErrorMissingParameter "viewId"
  | Some view_id =>
  if negb (strncmp view_id kViewIdPrefx kViewIdPrefxLength =? 0) then
    ErrorBadParameter "viewId" view_id
  else
  match asset_directory with
  | None => ErrorMissingParameter "assetDirectory"
  | Some asset_directory =>
  match main_script with
  | None => ErrorMissingParameter "mainScript"
  | Some main_script =>
  match packages_file with
  | None => ErrorMissingParameter "packagesFile"
  | Some packages_file =>
  view_id_as_num ← lift (stoull (advance kViewIdPrefxLength view_id));
  let out := unset_result in
  let out := RunInPlatformView shell view_id_as_num main_script packages_file
               asset_directory out in
  match RunInView_branch view_id view_id_as_num out with
  | Some returned => returned
  | None => trailing
  end
  end end end end.

(** The handler as the source has it: the branch is followed by
    [return true], which stores nothing. *)
Definition RunInView : Shell → option (list string) → list string → Z
    → Handler bool :=
  RunInView_with (mret true).

(* ===================================================================== *)
(** * ListViews *)
(* ===================================================================== *)



(* ===================================================================== *)
(** * Screenshots *)
(* ===================================================================== *)

Definition EncodeBitmapAsPNG (skia : Skia) (bitmap : SkBitmap)
    : option (list Byte.byte) :=
  SkEncodeBitmap skia bitmap.

Definition GetRandomRasterizer (shell : Shell) : option Rasterizer :=
  let rasterizer := None in
  IteratePlatformViews shell
    (fun view rasterizer =>
       let rasterizer := GetWeakRasterizerPtr view in
       (false, rasterizer))
    rasterizer.

(** [bitmap] is the in-out parameter. A bitmap whose allocation failed is
    empty; the surface, canvas and frame made around an allocated one only
    carry the clear and the raster onto its pixels. *)
Definition ScreenshotGpuTask (skia : Skia) (shell : Shell) (bitmap : SkBitmap)
    : SkBitmap :=
  match GetRandomRasterizer shell with
  | None => bitmap
  | Some rasterizer =>
  match GetLastLayerTree rasterizer with
  | None => bitmap
  | Some layer_tree =>
  let frame_size := frame_size layer_tree in
  if negb (tryAllocN32Pixels skia (fst frame_size) (snd frame_size)) then
    empty_bitmap
  else
    N32Pixels (fst frame_size) (snd frame_size) (Some layer_tree)
  end end.

Definition Screenshot (skia : Skia) (shell : Shell) : Handler bool :=
  let bitmap := empty_bitmap in
  let bitmap := ScreenshotGpuTask skia shell bitmap in
  let png := EncodeBitmapAsPNG skia bitmap in
  match png with
  | None => ErrorServer "can not encode screenshot"
  | Some png =>
      let b64_data := SkBase64_Encode skia png in
      let response := EmptyString in
      let response := response +:+ lit "{'type':'Screenshot'," +:+ lit "'screenshot':'"
                               +:+ b64_data +:+ lit "'}" in
      store_json response;;
      mret true
  end.

Definition ScreenshotSkpGpuTask (shell : Shell) : option SkPicture :=
  match GetRandomRasterizer shell with
  | None => None
  | Some rasterizer =>
  match GetLastLayerTree rasterizer with
  | None => None
  | Some layer_tree =>
      Some (recording (fst (frame_size layer_tree))
                      (snd (frame_size layer_tree)) layer_tree)
  end end.

(** [picture->serialize()] goes through the pointer the GPU task
    returned. *)
Definition ScreenshotSkp (skia : Skia) (shell : Shell) : Handler bool :=
  let picture := ScreenshotSkpGpuTask shell in
  skp_data ← lift (match picture with
                   | None => Fault null_dereference
                   | Some picture => Ok (serialize skia picture)
                   end);
  let b64_data := SkBase64_Encode skia skp_data in
  let response := EmptyString in
  let response := response +:+ lit "{'type':'ScreenshotSkp'," +:+ lit "'skp':'"
                           +:+ b64_data +:+ lit "'}" in
  store_json response;;
  mret true.

(* ===================================================================== *)
(** * FlushUIThreadTasks *)
(* ===================================================================== *)

Definition FlushUIThreadTasks : Handler bool :=
  store_json (lit "{'type':'Success'}");;
  mret true.

(* ===================================================================== *)
(** * Well-formed calls and sample collaborators *)
(* ===================================================================== *)

(** The VM hands a handler two arrays of [num_params] strings each, or no
    key array at all. *)
Definition well_formed_params (param_keys : option (list string))
    (param_values : list string) (num_params : Z) : Prop :=
  match param_keys with
  | None => True
  | Some keys =>
      num_params ≤ Z.of_nat (length keys) ∧
      num_params ≤ Z.of_nat (length param_values)
  end.

(** [view_id] begins with [kViewIdPrefx]. *)
Definition has_view_id_prefix (view_id : string) : bool :=
  String.prefix kViewIdPrefx view_id.

Definition run_script_keys : list string :=
  ["viewId"; "assetDirectory"; "mainScript"; "packagesFile"]%string.

(** [key] is missing from the parameter list: its lookup gives NULL. *)
Definition is_missing (param_keys : option (list string))
    (param_values : list string) (num_params : Z) (key : string) : bool :=
  match ValueForKey param_keys param_values num_params key with
  | Ok None => true
  | _ => false
  end.

(** The first of the four required parameters that is missing, if any. *)
Definition first_missing (param_keys : option (list string))
    (param_values : list string) (num_params : Z) : option string :=
  List.find (is_missing param_keys param_values num_params) run_script_keys.

(** The descriptor of one view, on its own. *)
Definition view_descriptor (view : PlatformView) : string :=
  AppendFlutterView EmptyString (view_address view)
    (GetUIIsolateMainPort view) (GetUIIsolateName view).

(** A shell that answers [RunInPlatformView] from its list of views: the
    out-parameters are touched only for a view it has. *)
Definition sample_run (views : list PlatformView) (view_id : N)
    (main_script packages_file asset_directory : string) (out : RunResult)
    : RunResult :=
  match List.find (fun view => (view_address view =? view_id)%N) views with
  | Some view => {| view_existed := true;
                    main_port := GetUIIsolateMainPort view;
                    isolate_name := GetUIIsolateName view |}
  | None => out
  end.

Definition sample_shell (views : list PlatformView) : Shell :=
  {| platform_views := views; RunInPlatformView := sample_run views |}.

Definition sample_view : PlatformView :=
  {| view_address := 48879;
     GetUIIsolateMainPort := 77;
     GetUIIsolateName := "main";
     GetWeakRasterizerPtr := Some {| GetLastLayerTree := None |} |}.

(** A graphics library that cannot encode a bitmap without pixels. *)
Definition sample_skia : Skia :=
  {| tryAllocN32Pixels := fun _ _ => true;
     SkEncodeBitmap := fun bitmap =>
       match bitmap with
       | empty_bitmap => None
       | N32Pixels _ _ _ => Some []
       end;
     serialize := fun _ => [];
     SkBase64_Encode := fun _ => EmptyString;
     SkBase64_Encode_text := fun _ => eq_refl |}.

(** The id that [AppendFlutterView] writes for a handle. *)
Definition view_id_of (handle : N) : string :=
  kViewIdPrefx +:+ "0x" +:+ hex handle.

(** [s] is empty or begins with a character that is no hexadecimal
    digit: where [strtoull] stops reading. *)
Definition ends_number (s : string) : bool :=
  match s with
  | EmptyString => true
  | String c _ => match hex_value c with
                  | Some _ => false
                  | None => true
                  end
  end.

(** What [AppendFlutterView] writes for an isolate, if there is one. *)
Definition isolate_member (isolate_id : Z) (isolate_name : string) : string :=
  if isolate_id =? ILLEGAL_PORT then EmptyString
  else lit ",'isolate':{'type':'@Isolate','fixedId':true,'id':'isolates/"
       +:+ to_string isolate_id +:+ lit "','name':'" +:+ isolate_name
       +:+ lit "','number':'" +:+ to_string isolate_id +:+ lit "'}".

Definition sample_tree : LayerTree :=
  {| frame_size := (800, 600); root_layer := 1 |}.

Definition sample_drawn_view : PlatformView :=
  {| view_address := 4096;
     GetUIIsolateMainPort := ILLEGAL_PORT;
     GetUIIsolateName := EmptyString;
     GetWeakRasterizerPtr := Some {| GetLastLayerTree := Some sample_tree |} |}.

(** A graphics library with no memory left for pixels. *)
Definition sample_skia_no_memory : Skia :=
  {| tryAllocN32Pixels := fun _ _ => false;
     SkEncodeBitmap := SkEncodeBitmap sample_skia;
     serialize := serialize sample_skia;
     SkBase64_Encode := SkBase64_Encode sample_skia;
     SkBase64_Encode_text := SkBase64_Encode_text sample_skia |}.


(* ===================================================================== *)
(** * Strings *)
(* ===================================================================== *)

Lemma append_cons (c : ascii) (s1 s2 : string) :
  String c s1 +:+ s2 = String c (s1 +:+ s2).
Proof. reflexivity. Qed.

Lemma append_empty_l (s : string) : EmptyString +:+ s = s.
Proof. reflexivity. Qed.

Lemma append_assoc (s1 s2 s3 : string) : (s1 +:+ s2) +:+ s3 = s1 +:+ (s2 +:+ s3).
Proof.
  induction s1 as [|c s1 IH]; [done |].
  by rewrite !append_cons, IH.
Qed.

Lemma append_empty_r (s : string) : s +:+ EmptyString = s.
Proof.
  induction s as [|c s IH]; [done |].
  by rewrite append_cons, IH.
Qed.

Lemma compare_refl (s : string) : String.compare s s = Eq.
Proof.
  induction s as [|c s IH]; simpl; [done |].
  unfold Ascii.compare. by rewrite N.compare_refl.
Qed.

Lemma strcmp_eq (s1 s2 : string) : strcmp s1 s2 = 0 ↔ s1 = s2.
Proof.
  unfold strcmp. split.
  - destruct (String.compare s1 s2) eqn:E; try discriminate.
    intros _. by apply String.compare_eq_iff.
  - intros ->. by rewrite compare_refl.
Qed.

Lemma strcmp_eqb (s1 s2 : string) :
  (strcmp s1 s2 =? 0) = bool_decide (s1 = s2).
Proof.
  case_bool_decide as E.
  - apply Z.eqb_eq. by apply strcmp_eq.
  - apply Z.eqb_neq. by rewrite strcmp_eq.
Qed.

Lemma strncmp_prefix (view_id : string) :
  (strncmp view_id kViewIdPrefx kViewIdPrefxLength =? 0)
  = has_view_id_prefix view_id.
Proof.
  unfold strncmp, has_view_id_prefix. rewrite strcmp_eqb.
  change (substring 0 kViewIdPrefxLength kViewIdPrefx) with kViewIdPrefx.
  destruct (String.prefix kViewIdPrefx view_id) eqn:E.
  - apply prefix_correct in E. by apply bool_decide_eq_true.
  - apply bool_decide_eq_false. intros E'.
    apply prefix_correct in E'. congruence.
Qed.

(** Past a prefix it has, a string is what is left of it. *)
Lemma prefix_advance (p s : string) :
  String.prefix p s = true → s = p +:+ advance (String.length p) s.
Proof.
  revert s. induction p as [|c p IH]; intros [|c' s]; simpl; try done.
  destruct (ascii_dec c c') as [->|]; [|done].
  intros E. rewrite append_cons. by rewrite <- (IH s E).
Qed.

(* ===================================================================== *)
(** * C strings *)
(* ===================================================================== *)

(** A string without a zero byte is its own C string. *)
Lemma c_str_nul_free (s : string) : nul_free s = true → c_str s = s.
Proof.
  induction s as [|c s IH]; [done |]. cbn [nul_free c_str].
  destruct (Ascii.eqb c "000"); [done |]. cbn [negb andb].
  intros Hs. by rewrite IH.
Qed.



Lemma nul_free_append (s1 s2 : string) :
  nul_free (s1 +:+ s2) = nul_free s1 && nul_free s2.
Proof.
  induction s1 as [|c s1 IH]; [done |].
  rewrite append_cons. cbn [nul_free]. by rewrite IH, andb_assoc.
Qed.

(** The cut falls after a part that holds no zero byte. *)
Lemma c_str_append (s1 s2 : string) :
  nul_free s1 = true → c_str (s1 +:+ s2) = s1 +:+ c_str s2.
Proof.
  induction s1 as [|c s1 IH]; [done |].
  rewrite !append_cons. cbn [nul_free c_str].
  destruct (Ascii.eqb c "000"); [done |]. cbn [negb andb].
  intros Hs. by rewrite IH.
Qed.

Lemma nul_free_string_of_uint (d : Decimal.uint) :
  nul_free (NilEmpty.string_of_uint d) = true.
Proof. induction d; done. Qed.

Lemma nul_free_to_string (z : Z) : nul_free (to_string z) = true.
Proof.
  assert (Huint : ∀ d, nul_free (NilZero.string_of_uint d) = true).
  { intros d. pose proof (nul_free_string_of_uint d). by destruct d. }
  unfold to_string, NilZero.string_of_int.
  destruct (Z.to_int z) as [d|d]; cbn [nul_free]; by rewrite Huint.
Qed.

Lemma hex_char_nul (d : N) : (d < 16)%N → Ascii.eqb (hex_char d) "000" = false.
Proof.
  intros Hd.
  assert (H : Forall (λ d, Ascii.eqb (hex_char d) "000" = false)
                (N.of_nat <$> seq 0 16)) by (repeat constructor).
  rewrite Forall_forall in H. apply H.
  apply list_elem_of_fmap. exists (N.to_nat d). split; [lia |].
  apply elem_of_seq. lia.
Qed.

Lemma nul_free_hex_digits (digits : nat) (n : N) (acc : string) :
  nul_free (hex_digits digits n acc) = nul_free acc.
Proof.
  revert n acc. induction digits as [|digits IH]; intros n acc; [done |].
  cbn [hex_digits].
  assert (Hacc : nul_free (String (hex_char (n mod 16)) acc) = nul_free acc).
  { cbn [nul_free]. by rewrite hex_char_nul by (apply N.mod_lt; lia). }
  destruct (n / 16 =? 0)%N; [done |]. by rewrite IH.
Qed.

Lemma nul_free_hex (n : N) : nul_free (hex n) = true.
Proof. apply nul_free_hex_digits. Qed.

Lemma nul_free_view_id_of (handle : N) : nul_free (view_id_of handle) = true.
Proof. unfold view_id_of. by rewrite !nul_free_append, nul_free_hex. Qed.


(** Splits a text into its parts and settles those that are literals,
    numbers or known to hold no zero byte. *)
Ltac nul_free_parts :=
  rewrite ?nul_free_append, ?nul_free_to_string, ?nul_free_hex,
    ?nul_free_view_id_of, ?SkBase64_Encode_text;
  repeat match goal with
         | H : nul_free _ = true |- _ => rewrite H
         end;
  try reflexivity.

(* ===================================================================== *)
(** * Parameter lookup *)
(* ===================================================================== *)

Lemma array_read_lookup {A : Type} (a : list A) (i : nat) (x : A) :
  a !! i = Some x → array_read a (Z.of_nat i) = Ok x.
Proof.
  intros E. unfold array_read.
  destruct (Z.ltb_spec (Z.of_nat i) 0) as [?|_]; [lia |].
  by rewrite Nat2Z.id, E.
Qed.

Section KeyIndex_loop.
Variables (keys : list string) (key : string).

(** The loop stops at the first index that holds [key]. *)
Lemma KeyIndex_loop_first (remaining start i : nat) :
  (start ≤ i < start + remaining)%nat →
  keys !! i = Some key →
  (∀ j, (start ≤ j < i)%nat → keys !! j ≠ Some key) →
  KeyIndex_loop keys key (Z.of_nat start) remaining = Ok (Z.of_nat i).
Proof.
  revert start. induction remaining as [|remaining IH]; intros start Hi Hkey Hfirst.
  - lia.
  - simpl. destruct (decide (start = i)) as [->|Hne].
    + rewrite (array_read_lookup _ _ _ Hkey). simpl.
      by rewrite strcmp_eqb, bool_decide_eq_true_2.
    + destruct (lookup_lt_is_Some_2 keys start) as [k Hk].
      { apply lookup_lt_Some in Hkey. lia. }
      rewrite (array_read_lookup _ _ _ Hk). simpl.
      rewrite strcmp_eqb, bool_decide_eq_false_2.
      * replace (Z.of_nat start + 1) with (Z.of_nat (S start)) by lia.
        apply IH; [lia | done |]. intros j Hj. apply Hfirst. lia.
      * intros ->. apply (Hfirst start); [lia | done].
Qed.

(** Within the array, the loop ends, on an index it went through or
    on -1. *)
Lemma KeyIndex_loop_range (remaining start : nat) :
  (start + remaining ≤ length keys)%nat →
  ∃ index, KeyIndex_loop keys key (Z.of_nat start) remaining = Ok index ∧
           (index = -1 ∨ Z.of_nat start ≤ index < Z.of_nat (start + remaining)).
Proof.
  revert start. induction remaining as [|remaining IH]; intros start Hlen.
  - exists (-1). by split; [| left].
  - simpl. destruct (lookup_lt_is_Some_2 keys start) as [k Hk]; [lia |].
    rewrite (array_read_lookup _ _ _ Hk). simpl.
    destruct (strcmp k key =? 0).
    + exists (Z.of_nat start). split; [done | right; lia].
    + replace (Z.of_nat start + 1) with (Z.of_nat (S start)) by lia.
      destruct (IH (S start)) as (index & -> & Hindex); [lia |].
      exists index. split; [done | lia].
Qed.

(** With no index holding [key], the loop ends on -1. *)
Lemma KeyIndex_loop_absent (remaining start : nat) :
  (start + remaining ≤ length keys)%nat →
  (∀ j, (start ≤ j < start + remaining)%nat → keys !! j ≠ Some key) →
  KeyIndex_loop keys key (Z.of_nat start) remaining = Ok (-1).
Proof.
  revert start. induction remaining as [|remaining IH]; intros start Hlen Habsent.
  - done.
  - simpl. destruct (lookup_lt_is_Some_2 keys start) as [k Hk]; [lia |].
    rewrite (array_read_lookup _ _ _ Hk). simpl.
    rewrite strcmp_eqb, bool_decide_eq_false_2.
    + replace (Z.of_nat start + 1) with (Z.of_nat (S start)) by lia.
      apply IH; [lia |]. intros j Hj. apply Habsent. lia.
    + intros ->. apply (Habsent start); [lia | done].
Qed.
End KeyIndex_loop.

Lemma KeyIndex_first (keys : list string) (num_params : Z) (key : string)
    (i : nat) :
  Z.of_nat i < num_params →
  keys !! i = Some key →
  (∀ j, (j < i)%nat → keys !! j ≠ Some key) →
  KeyIndex (Some keys) num_params key = Ok (Z.of_nat i).
Proof.
  intros Hi Hkey Hfirst.
  apply (KeyIndex_loop_first keys key (Z.to_nat num_params) 0 i);
    [lia | done |]. intros j Hj. apply Hfirst. lia.
Qed.

Lemma KeyIndex_range (keys : list string) (num_params : Z) (key : string) :
  num_params ≤ Z.of_nat (length keys) →
  ∃ index, KeyIndex (Some keys) num_params key = Ok index ∧
           (index = -1 ∨ 0 ≤ index < num_params).
Proof.
  intros Hlen.
  destruct (KeyIndex_loop_range keys key (Z.to_nat num_params) 0)
    as (index & E & Hindex); [lia |].
  exists index. split; [exact E | lia].
Qed.

Lemma KeyIndex_absent (keys : list string) (num_params : Z) (key : string) :
  num_params ≤ Z.of_nat (length keys) →
  (∀ j, Z.of_nat j < num_params → keys !! j ≠ Some key) →
  KeyIndex (Some keys) num_params key = Ok (-1).
Proof.
  intros Hlen Habsent.
  apply (KeyIndex_loop_absent keys key (Z.to_nat num_params) 0); [lia |].
  intros j Hj. apply Habsent. lia.
Qed.

(** A well-formed call never faults in a lookup. *)
Lemma ValueForKey_total (param_keys : option (list string))
    (param_values : list string) (num_params : Z) (key : string) :
  well_formed_params param_keys param_values num_params →
  ∃ value, ValueForKey param_keys param_values num_params key = Ok value.
Proof.
  destruct param_keys as [keys|]; intros Hwf; unfold ValueForKey.
  - destruct Hwf as [Hkeys Hvalues].
    destruct (KeyIndex_range keys num_params key Hkeys) as (index & -> & Hindex).
    simpl.
    destruct (Z.ltb_spec index 0) as [?|Hpos]; [by eexists |].
    destruct (lookup_lt_is_Some_2 param_values (Z.to_nat index)) as [v Hv]; [lia |].
    rewrite <- (Z2Nat.id index), (array_read_lookup _ _ _ Hv) by done.
    by eexists.
  - by eexists.
Qed.

(** C10. Parameter lookup is first-match and total. A NULL key array
    yields NULL. Otherwise, when [i] is the smallest index below
    [num_params] whose key equals [key], [ValueForKey] returns
    [param_values[i]]: with duplicate keys the first occurrence wins. When
    no index below [num_params] holds [key], it returns NULL. On arrays
    that hold [num_params] entries the lookup always returns. *)
Theorem ValueForKey_first_match (param_values : list string)
    (num_params : Z) (key : string) :
  ValueForKey None param_values num_params key = Ok None ∧
  (∀ (keys : list string) (i : nat) (v : string),
      Z.of_nat i < num_params →
      keys !! i = Some key →
      (∀ j, (j < i)%nat → keys !! j ≠ Some key) →
      param_values !! i = Some v →
      ValueForKey (Some keys) param_values num_params key = Ok (Some v)) ∧
  (∀ keys : list string,
      num_params ≤ Z.of_nat (length keys) →
      (∀ j, Z.of_nat j < num_params → keys !! j ≠ Some key) →
      ValueForKey (Some keys) param_values num_params key = Ok None) ∧
  (∀ param_keys : option (list string),
      well_formed_params param_keys param_values num_params →
      ∃ value, ValueForKey param_keys param_values num_params key = Ok value).
Proof.
  split; [done |]. split; [| split; [| intros; by apply ValueForKey_total]].
  - intros keys i v Hi Hkey Hfirst Hv. unfold ValueForKey.
    rewrite (KeyIndex_first keys num_params key i Hi Hkey Hfirst).
    simpl. destruct (Z.ltb_spec (Z.of_nat i) 0) as [?|_]; [lia |].
    by rewrite (array_read_lookup _ _ _ Hv).
  - intros keys Hlen Habsent. unfold ValueForKey.
    by rewrite (KeyIndex_absent keys num_params key Hlen Habsent).
Qed.

Lemma ValueForKey_first_match_witness :
  ValueForKey (Some ["mainScript"; "viewId"; "viewId"]%string)
    ["m"; "first"; "second"]%string 3 "viewId" = Ok (Some "first"%string) ∧
  ValueForKey (Some ["mainScript"]%string) ["m"]%string 1 "viewId" = Ok None.
Proof.
  destruct (ValueForKey_first_match ["m"; "first"; "second"]%string 3 "viewId")
    as (_ & Hfirst & _ & _).
  destruct (ValueForKey_first_match ["m"]%string 1 "viewId")
    as (_ & _ & Habsent & _).
  split.
  - apply (Hfirst _ 1%nat); [lia | reflexivity | | reflexivity].
    intros [|j] Hj; [discriminate | lia].
  - apply Habsent; [simpl; lia |].
    intros [|j] Hj; [discriminate | lia].
Defined.

(* ===================================================================== *)
(** * Hexadecimal handles *)
(* ===================================================================== *)

Lemma hex_value_hex_char (d : N) : (d < 16)%N → hex_value (hex_char d) = Some d.
Proof.
  intros Hd.
  assert (H : Forall (λ d, hex_value (hex_char d) = Some d)
                (N.of_nat <$> seq 0 16)) by (repeat constructor).
  rewrite Forall_forall in H. apply H.
  apply list_elem_of_fmap. exists (N.to_nat d). split; [lia |].
  apply elem_of_seq. lia.
Qed.

(** The digits of [n] are read back as [n], in front of whatever was read
    before them. *)
Lemma scan_hex_hex_digits (digits : nat) (n : N) (acc : string) :
  (n < 16 ^ N.of_nat (S digits))%N →
  ∃ k : nat, ∀ count a,
    scan_hex (hex_digits (S digits) n acc) count a
    = scan_hex acc (S k + count) (16 ^ N.of_nat (S k) * a + n)%N.
Proof.
  revert n acc. induction digits as [|digits IH]; intros n acc Hn;
    cbn [hex_digits]; destruct (N.eqb_spec (n / 16) 0) as [Hsmall|Hlarge].
  1, 3: exists 0%nat; intros count a; cbn [scan_hex];
        assert (n < 16)%N by (apply N.div_small_iff in Hsmall; lia);
        rewrite N.mod_small, hex_value_hex_char by done;
        f_equal; lia.
  - exfalso. apply Hlarge. apply N.div_small. simpl in Hn. lia.
  - destruct (IH (n / 16)%N (String (hex_char (n mod 16)) acc)) as [k Hk].
    { apply N.Div0.div_lt_upper_bound.
      by rewrite <- N.pow_succ_r', <- Nat2N.inj_succ. }
    exists (S k). intros count a. cbn [hex_digits] in Hk. rewrite Hk.
    cbn [scan_hex].
    rewrite hex_value_hex_char by (apply N.mod_lt; lia).
    f_equal; try lia.
    rewrite (N.div_mod n 16) at 3 by lia.
    rewrite (Nat2N.inj_succ (S k)), N.pow_succ_r'. lia.
Qed.

(** The first digit written is a hexadecimal digit. *)
Lemma hex_digits_head (digits : nat) (n : N) (acc : string) :
  ∃ d rest, (d < 16)%N ∧ hex_digits (S digits) n acc = String (hex_char d) rest.
Proof.
  revert n acc. induction digits as [|digits IH]; intros n acc;
    cbn [hex_digits]; destruct (n / 16 =? 0)%N;
    try (exists (n mod 16)%N, acc; split; [apply N.mod_lt; lia | done]).
  apply (IH (n / 16)%N).
Qed.


(* ===================================================================== *)
(** * ListViews *)
(* ===================================================================== *)

(** What [AppendFlutterView] writes does not depend on what the stream
    holds already. *)
Lemma AppendFlutterView_stream (stream : string) (view_id : N)
    (isolate_id : Z) (isolate_name : string) :
  AppendFlutterView stream view_id isolate_id isolate_name
  = stream +:+ AppendFlutterView EmptyString view_id isolate_id isolate_name.
Proof.
  unfold AppendFlutterView, AppendIsolateRef. cbv zeta.
  destruct (negb (isolate_id =? ILLEGAL_PORT));
    rewrite ?append_assoc, ?append_empty_l; reflexivity.
Qed.

(** Every descriptor opens with the view's id: the prefix, [0x] and the
    handle in hexadecimal. *)
Lemma view_descriptor_id (view : PlatformView) :
  ∃ rest,
    view_descriptor view
    = lit "{'type':'FlutterView', 'id': '_flutterView/0x"
      +:+ hex (view_address view) +:+ lit "'" +:+ rest.
Proof.
  unfold view_descriptor, AppendFlutterView, AppendIsolateRef. cbv zeta.
  destruct (negb (GetUIIsolateMainPort view =? ILLEGAL_PORT));
    eexists; rewrite !append_assoc, ?append_empty_l; reflexivity.
Qed.




(** What [AppendFlutterView] writes on an empty stream: the id and, for
    a view with an isolate, the reference to it. *)
Lemma AppendFlutterView_text (view_id : N) (isolate_id : Z)
    (isolate_name : string) :
  AppendFlutterView EmptyString view_id isolate_id isolate_name
  = lit "{'type':'FlutterView', 'id': '" +:+ view_id_of view_id +:+ lit "'"
    +:+ isolate_member isolate_id isolate_name +:+ "}".
Proof.
  unfold AppendFlutterView, AppendIsolateRef, isolate_member, view_id_of.
  cbv zeta. destruct (isolate_id =? ILLEGAL_PORT); cbn [negb];
    rewrite ?append_assoc; reflexivity.
Qed.

(** The name of the isolate is the only part of a descriptor that can
    hold a zero byte. *)
Lemma nul_free_isolate_member (isolate_id : Z) (isolate_name : string) :
  nul_free (isolate_member isolate_id isolate_name) = true
  ↔ (isolate_id ≠ ILLEGAL_PORT → nul_free isolate_name = true).
Proof.
  unfold isolate_member.
  destruct (Z.eqb_spec isolate_id ILLEGAL_PORT) as [Hport|Hport]; [done |].
  rewrite !nul_free_append, !nul_free_to_string.
  destruct (nul_free isolate_name); split; try done.
  intros Hname. by apply Hname.
Qed.

Lemma nul_free_AppendFlutterView (view_id : N) (isolate_id : Z)
    (isolate_name : string) :
  nul_free (AppendFlutterView EmptyString view_id isolate_id isolate_name)
  = true
  ↔ (isolate_id ≠ ILLEGAL_PORT → nul_free isolate_name = true).
Proof.
  rewrite <- nul_free_isolate_member, AppendFlutterView_text.
  rewrite !nul_free_append, nul_free_view_id_of.
  by destruct (nul_free (isolate_member isolate_id isolate_name)).
Qed.




(* ===================================================================== *)
(** * Error responses *)
(* ===================================================================== *)

(** Each error function stores its text as a C string. *)
Lemma ErrorMissingParameter_run (name : string) (js : list string) :
  ErrorMissingParameter name js
  = Ok (false,
        js ++ [c_str (lit "{'code':-32602,'message':'Invalid params','data': {'details': '"
                      +:+ name +:+ lit "'}}")]).
Proof. reflexivity. Qed.

Lemma ErrorBadParameter_run (name value : string) (js : list string) :
  ErrorBadParameter name value js
  = Ok (false,
        js ++ [c_str (lit "{'code':-32602,'message':'Invalid params','data': {'details': 'parameter: "
                      +:+ name +:+ " has a bad value: " +:+ value +:+ lit "'}}")]).
Proof.
  unfold ErrorBadParameter. cbv zeta.
  rewrite !append_assoc. reflexivity.
Qed.

Lemma ErrorUnknownView_run (view_id : string) (js : list string) :
  ErrorUnknownView view_id js
  = Ok (false,
        js ++ [c_str (lit "{'code':-32602,'message':'Invalid params','data': {'details': 'view not found: "
                      +:+ view_id +:+ lit "'}}")]).
Proof. reflexivity. Qed.

Lemma ErrorServer_run (message : string) (js : list string) :
  ErrorServer message js
  = Ok (false,
        js ++ [c_str (lit "{'code':-32000,'message':'" +:+ message +:+ lit "'}")]).
Proof. reflexivity. Qed.

(* ===================================================================== *)
(** * RunInView *)
(* ===================================================================== *)

(** Rewrites the lookups of [RunInView] with what the context says of
    them, and runs the handler up to the next test it cannot decide. *)
Ltac run_lookups :=
  unfold RunInView, RunInView_with;
  repeat match goal with
         | H : ValueForKey _ _ _ _ = _ |- _ => rewrite H; clear H
         end;
  unfold mbind, Handler_bind, lift;
  rewrite ?strncmp_prefix.

(** The branch that ends [RunInView] returns on both sides. *)
Lemma RunInView_branch_returns (view_id : string) (view_id_as_num : N)
    (out : RunResult) :
  is_Some (RunInView_branch view_id view_id_as_num out).
Proof. unfold RunInView_branch. by destruct (negb (view_existed out)). Qed.

Lemma RunInView_branch_unknown (view_id : string) (view_id_as_num : N)
    (out : RunResult) :
  view_existed out = false →
  RunInView_branch view_id view_id_as_num out = Some (ErrorUnknownView view_id).
Proof. intros E. unfold RunInView_branch. by rewrite E. Qed.

Section RunInView_facts.
Variables (shell : Shell) (param_keys : option (list string))
  (param_values : list string) (num_params : Z) (js : list string).

Lemma RunInView_with_any (trailing : Handler bool) :
  RunInView_with trailing shell param_keys param_values num_params js
  = RunInView shell param_keys param_values num_params js.
Proof.
  unfold RunInView, RunInView_with.
  repeat match goal with
         | |- context [ValueForKey ?k ?v ?n ?key] =>
             destruct (ValueForKey k v n key) as [[?|]|?]; try reflexivity
         end.
  unfold mbind, Handler_bind, lift.
  match goal with
  | |- context [negb ?b] => destruct (negb b); [reflexivity |]
  end.
  match goal with
  | |- context [stoull ?s] => destruct (stoull s) as [h|]; [|reflexivity]
  end.
  match goal with
  | |- context [RunInView_branch ?a ?b ?c] =>
      destruct (RunInView_branch_returns a b c) as [returned ->]
  end.
  reflexivity.
Qed.
End RunInView_facts.

(** X19. With the four parameters there, the prefix in place and a handle
    that converts, a view that the shell reports as existing is answered
    with the success object around the descriptor made of the converted
    handle and of the port and name the shell gave, stored as a C string,
    and the handler returns true. The whole object is stored unless the
    shell gave an isolate whose name holds a zero byte. *)
Lemma RunInView_success (shell : Shell)
    (param_keys : option (list string)) (param_values : list string)
    (num_params : Z) (js : list string)
    (view_id asset_directory main_script packages_file : string)
    (view_id_as_num : N) :
  ValueForKey param_keys param_values num_params "viewId" = Ok (Some view_id) →
  ValueForKey param_keys param_values num_params "assetDirectory"
  = Ok (Some asset_directory) →
  ValueForKey param_keys param_values num_params "mainScript"
  = Ok (Some main_script) →
  ValueForKey param_keys param_values num_params "packagesFile"
  = Ok (Some packages_file) →
  has_view_id_prefix view_id = true →
  stoull (advance kViewIdPrefxLength view_id) = Ok view_id_as_num →
  let out := RunInPlatformView shell view_id_as_num main_script packages_file
               asset_directory unset_result in
  view_existed out = true →
  let response := lit "{'type':'Success','view':"
                  +:+ AppendFlutterView EmptyString view_id_as_num
                        (main_port out) (isolate_name out)
                  +:+ "}" in
  RunInView shell param_keys param_values num_params js
  = Ok (true, js ++ [c_str response]) ∧
  ((main_port out ≠ ILLEGAL_PORT → nul_free (isolate_name out) = true) →
   RunInView shell param_keys param_values num_params js
   = Ok (true, js ++ [response])).
Proof.
  intros Hv Ha Hm Hp Hprefix Hnum out Hexisted response.
  assert (Hrun : RunInView shell param_keys param_values num_params js
                 = Ok (true, js ++ [c_str response])).
  { run_lookups. rewrite Hprefix, Hnum. cbn [negb].
    unfold RunInView_branch. fold out. rewrite Hexisted. cbn [negb].
    rewrite (AppendFlutterView_stream (_ +:+ _)).
    rewrite !append_assoc, append_empty_l. reflexivity. }
  split; [exact Hrun |].
  intros Hname. rewrite Hrun, c_str_nul_free; [reflexivity |].
  apply (proj2 (nul_free_AppendFlutterView view_id_as_num _ _)) in Hname.
  subst response. by rewrite !nul_free_append, Hname.
Qed.

(** C1, as the code has it. In a well-formed call from which one of the
    four required parameters is missing and whose [viewId], if it is there,
    begins with the view-id prefix, the response is the MissingParameter
    error (code -32602, message "Invalid params") whose details name the
    first missing parameter, in the order [viewId], [assetDirectory],
    [mainScript], [packagesFile], and the handler returns false. *)
Theorem RunInView_missing_parameter (shell : Shell)
    (param_keys : option (list string)) (param_values : list string)
    (num_params : Z) (js : list string) (name : string) :
  well_formed_params param_keys param_values num_params →
  (∀ view_id,
      ValueForKey param_keys param_values num_params "viewId"
      = Ok (Some view_id) →
      has_view_id_prefix view_id = true) →
  first_missing param_keys param_values num_params = Some name →
  RunInView shell param_keys param_values num_params js
  = Ok (false,
        js ++ [lit "{'code':-32602,'message':'Invalid params','data': {'details': '"
               +:+ name +:+ lit "'}}"]).
Proof.
  intros Hwf Hprefix.
  destruct (ValueForKey_total _ _ _ "viewId" Hwf) as [view_id Hv].
  destruct (ValueForKey_total _ _ _ "assetDirectory" Hwf) as [asset Ha].
  destruct (ValueForKey_total _ _ _ "mainScript" Hwf) as [main Hm].
  destruct (ValueForKey_total _ _ _ "packagesFile" Hwf) as [packages Hp].
  unfold first_missing, is_missing, run_script_keys. cbn [find].
  rewrite Hv, Ha, Hm, Hp.
  destruct view_id as [view_id|]; [| intros [= <-]; by run_lookups].
  pose proof (Hprefix view_id Hv) as Hview_id.
  destruct asset, main, packages; intros [= <-];
    run_lookups; rewrite Hview_id; reflexivity.
Qed.

Lemma RunInView_missing_parameter_witness :
  RunInView (sample_shell []) (Some ["viewId"; "mainScript"]%string)
    ["_flutterView/0x1"; "main.dart"]%string 2 []
  = Ok (false,
        [lit "{'code':-32602,'message':'Invalid params','data': {'details': 'assetDirectory'}}"]).
Proof.
  apply (RunInView_missing_parameter (sample_shell [])
           (Some ["viewId"; "mainScript"]%string)
           ["_flutterView/0x1"; "main.dart"]%string 2 [] "assetDirectory").
  - simpl. lia.
  - intros view_id [= <-]. reflexivity.
  - reflexivity.
Defined.

(** C1, as the claim has it, fails: [assetDirectory] is missing from this
    call, and the response is not the MissingParameter error that names it
    but the BadParameter error for the [viewId] that came with it. *)
Lemma RunInView_missing_parameter_unreported :
  well_formed_params (Some ["viewId"]%string) ["bogus"]%string 1 ∧
  ValueForKey (Some ["viewId"]%string) ["bogus"]%string 1 "assetDirectory"
  = Ok None ∧
  RunInView (sample_shell []) (Some ["viewId"]%string) ["bogus"]%string 1 []
  = Ok (false,
        [lit "{'code':-32602,'message':'Invalid params','data': {'details': 'parameter: viewId has a bad value: bogus'}}"]) ∧
  RunInView (sample_shell []) (Some ["viewId"]%string) ["bogus"]%string 1 []
  ≠ Ok (false,
        [lit "{'code':-32602,'message':'Invalid params','data': {'details': 'assetDirectory'}}"]).
Proof.
  split; [simpl; lia |]. split; [reflexivity |]. split; [reflexivity |].
  intros H. vm_compute in H. discriminate H.
Qed.

(** C2, on the code. With all four parameters there and the prefix in
    place, a handle that [std::stoull] cannot convert (no digit after the
    prefix, or a value beyond 64 bits) makes the handler leave by the
    exception: nothing is stored through [json_object], whatever the
    shell. *)
Theorem RunInView_malformed_handle (shell : Shell) (js : list string) :
  RunInView shell (Some run_script_keys)
    ["_flutterView/"; "assets"; "main.dart"; ".packages"]%string 4 js
  = Fault invalid_argument ∧
  RunInView shell (Some run_script_keys)
    ["_flutterView/view"; "assets"; "main.dart"; ".packages"]%string 4 js
  = Fault invalid_argument ∧
  RunInView shell (Some run_script_keys)
    ["_flutterView/0x10000000000000000"; "assets"; "main.dart"; ".packages"]%string
    4 js
  = Fault out_of_range.
Proof. repeat split. Qed.

(** C5. In a well-formed call whose [viewId] is there but does not begin
    with the view-id prefix, the response is the BadParameter error (code
    -32602) whose details give the name [viewId] and the value received,
    and the handler returns false. The response is stored as a C string:
    with the value received a C string, one without a zero byte, it is
    stored whole. *)
Theorem RunInView_bad_parameter (shell : Shell)
    (param_keys : option (list string)) (param_values : list string)
    (num_params : Z) (js : list string) (view_id : string) :
  well_formed_params param_keys param_values num_params →
  ValueForKey param_keys param_values num_params "viewId" = Ok (Some view_id) →
  has_view_id_prefix view_id = false →
  RunInView shell param_keys param_values num_params js
  = Ok (false,
        js ++ [c_str (lit "{'code':-32602,'message':'Invalid params','data': {'details': 'parameter: viewId has a bad value: "
                      +:+ view_id +:+ lit "'}}")]) ∧
  (nul_free view_id = true →
   RunInView shell param_keys param_values num_params js
   = Ok (false,
         js ++ [lit "{'code':-32602,'message':'Invalid params','data': {'details': 'parameter: viewId has a bad value: "
                +:+ view_id +:+ lit "'}}"])).
Proof.
  intros Hwf Hv Hprefix.
  destruct (ValueForKey_total _ _ _ "assetDirectory" Hwf) as [asset Ha].
  destruct (ValueForKey_total _ _ _ "mainScript" Hwf) as [main Hm].
  destruct (ValueForKey_total _ _ _ "packagesFile" Hwf) as [packages Hp].
  run_lookups. rewrite Hprefix. cbn [negb]. rewrite ErrorBadParameter_run.
  split; [reflexivity |]. intros Hview_id.
  rewrite c_str_nul_free; [reflexivity |]. nul_free_parts.
Qed.

Lemma RunInView_bad_parameter_witness :
  RunInView (sample_shell [sample_view]) (Some run_script_keys)
    ["flutterView/0xbeef"; "assets"; "main.dart"; ".packages"]%string 4 []
  = Ok (false,
        [lit "{'code':-32602,'message':'Invalid params','data': {'details': 'parameter: viewId has a bad value: flutterView/0xbeef'}}"]).
Proof.
  apply (RunInView_bad_parameter (sample_shell [sample_view])
           (Some run_script_keys) _ 4 [] "flutterView/0xbeef");
    [simpl; lia | reflexivity | reflexivity | reflexivity].
Defined.

(** C6. When the shell is asked for the view (the four parameters are
    there and [viewId] begins with the prefix and converts to a handle) and
    reports that no such view existed, the response is the UnknownView
    error (code -32602, details "view not found: " and the [viewId]
    received), and the handler returns false. The response is stored as a
    C string: with the [viewId] received a C string, one without a zero
    byte, it is stored whole. *)
Theorem RunInView_unknown_view (shell : Shell)
    (param_keys : option (list string)) (param_values : list string)
    (num_params : Z) (js : list string)
    (view_id asset_directory main_script packages_file : string)
    (view_id_as_num : N) :
  ValueForKey param_keys param_values num_params "viewId" = Ok (Some view_id) →
  ValueForKey param_keys param_values num_params "assetDirectory"
  = Ok (Some asset_directory) →
  ValueForKey param_keys param_values num_params "mainScript"
  = Ok (Some main_script) →
  ValueForKey param_keys param_values num_params "packagesFile"
  = Ok (Some packages_file) →
  has_view_id_prefix view_id = true →
  stoull (advance kViewIdPrefxLength view_id) = Ok view_id_as_num →
  view_existed
    (RunInPlatformView shell view_id_as_num main_script packages_file
       asset_directory unset_result) = false →
  RunInView shell param_keys param_values num_params js
  = Ok (false,
        js ++ [c_str (lit "{'code':-32602,'message':'Invalid params','data': {'details': 'view not found: "
                      +:+ view_id +:+ lit "'}}")]) ∧
  (nul_free view_id = true →
   RunInView shell param_keys param_values num_params js
   = Ok (false,
         js ++ [lit "{'code':-32602,'message':'Invalid params','data': {'details': 'view not found: "
                +:+ view_id +:+ lit "'}}"])).
Proof.
  intros Hv Ha Hm Hp Hprefix Hnum Hexisted.
  run_lookups. rewrite Hprefix, Hnum. cbn [negb].
  rewrite (RunInView_branch_unknown _ _ _ Hexisted), ErrorUnknownView_run.
  split; [reflexivity |]. intros Hview_id.
  rewrite c_str_nul_free; [reflexivity |]. nul_free_parts.
Qed.

Lemma RunInView_unknown_view_witness :
  RunInView (sample_shell [sample_view]) (Some run_script_keys)
    ["_flutterView/0xbeee"; "assets"; "main.dart"; ".packages"]%string 4 []
  = Ok (false,
        [lit "{'code':-32602,'message':'Invalid params','data': {'details': 'view not found: _flutterView/0xbeee'}}"]).
Proof.
  apply (RunInView_unknown_view (sample_shell [sample_view])
           (Some run_script_keys) _ 4 [] "_flutterView/0xbeee"
           "assets" "main.dart" ".packages" 48878);
    reflexivity.
Defined.

(** X20. A well-formed call either returns with exactly one response
    stored after those stored before, or is cut short by the exception of
    [std::stoull] on the handle of a [viewId] that has the prefix, with
    nothing stored. *)
Lemma RunInView_responds (shell : Shell)
    (param_keys : option (list string)) (param_values : list string)
    (num_params : Z) (js : list string) :
  well_formed_params param_keys param_values num_params →
  (∃ returned response,
      RunInView shell param_keys param_values num_params js
      = Ok (returned, js ++ [response])) ∨
  (∃ view_id f,
      ValueForKey param_keys param_values num_params "viewId"
      = Ok (Some view_id) ∧
      has_view_id_prefix view_id = true ∧
      stoull (advance kViewIdPrefxLength view_id) = Fault f ∧
      RunInView shell param_keys param_values num_params js = Fault f).
Proof.
  intros Hwf.
  destruct (ValueForKey_total _ _ _ "viewId" Hwf) as [view_id Hv].
  destruct (ValueForKey_total _ _ _ "assetDirectory" Hwf) as [asset Ha].
  destruct (ValueForKey_total _ _ _ "mainScript" Hwf) as [main Hm].
  destruct (ValueForKey_total _ _ _ "packagesFile" Hwf) as [packages Hp].
  rewrite Hv.
  destruct view_id as [view_id|]; run_lookups;
    [| left; rewrite ErrorMissingParameter_run; by do 2 eexists].
  destruct (has_view_id_prefix view_id) eqn:Hprefix; cbn [negb];
    [| left; rewrite ErrorBadParameter_run; by do 2 eexists].
  destruct asset as [asset|];
    [| left; rewrite ErrorMissingParameter_run; by do 2 eexists].
  destruct main as [main|];
    [| left; rewrite ErrorMissingParameter_run; by do 2 eexists].
  destruct packages as [packages|];
    [| left; rewrite ErrorMissingParameter_run; by do 2 eexists].
  destruct (stoull (advance kViewIdPrefxLength view_id)) as [h|f] eqn:Hnum.
  - left. unfold RunInView_branch.
    match goal with
    | |- context [negb ?b] => destruct (negb b)
    end.
    + rewrite ErrorUnknownView_run. by do 2 eexists.
    + by do 2 eexists.
  - right. by exists view_id, f.
Qed.

(** C9. The [if]/[else] over [view_existed] that ends [RunInView] returns
    on both sides, so [RunInView] is the same handler whatever statement
    follows it: the trailing [return true] is dead code. Yet not every call
    produces a response: on a [viewId] that is the prefix and a lone sign,
    with the three other parameters there, [std::stoull] throws before the
    branch and nothing is stored. *)
Theorem RunInView_trailing_return_unreachable :
  (∀ view_id view_id_as_num out,
      is_Some (RunInView_branch view_id view_id_as_num out)) ∧
  (∀ trailing shell param_keys param_values num_params js,
      RunInView_with trailing shell param_keys param_values num_params js
      = RunInView shell param_keys param_values num_params js) ∧
  (∀ shell js,
      RunInView shell (Some run_script_keys)
        ["_flutterView/-"; "assets"; "main.dart"; ".packages"]%string 4 js
      = Fault invalid_argument).
Proof.
  split; [exact RunInView_branch_returns |].
  split; [intros; apply RunInView_with_any |].
  reflexivity.
Qed.

(* ===================================================================== *)
(** * Registration *)
(* ===================================================================== *)

(** C8. Running precompiled code, [RegisterHook] registers the handlers
    of [listViews], [screenshot] and [screenshotSkp] and no other: the
    entries of [runInView] and [flushUIThreadTasks] are left as they were,
    absent from a table that did not have them. Otherwise it registers all
    five. *)
Theorem RegisterHook_registered (table : gmap string ServiceRequestCallback) :
  dom (RegisterHook true table)
  = {[ kListViewsExtensionName; kScreenshotExtensionName;
       kScreenshotSkpExtensionName ]} ∪ dom table ∧
  RegisterHook true table !! kListViewsExtensionName = Some cb_ListViews ∧
  RegisterHook true table !! kScreenshotExtensionName = Some cb_Screenshot ∧
  RegisterHook true table !! kScreenshotSkpExtensionName = Some cb_ScreenshotSkp ∧
  RegisterHook true table !! kRunInViewExtensionName
  = table !! kRunInViewExtensionName ∧
  RegisterHook true table !! kFlushUIThreadTasksExtensionName
  = table !! kFlushUIThreadTasksExtensionName ∧
  RegisterHook true ∅ !! kRunInViewExtensionName = None ∧
  RegisterHook true ∅ !! kFlushUIThreadTasksExtensionName = None ∧
  dom (RegisterHook false table)
  = {[ kListViewsExtensionName; kScreenshotExtensionName;
       kScreenshotSkpExtensionName; kRunInViewExtensionName;
       kFlushUIThreadTasksExtensionName ]} ∪ dom table ∧
  RegisterHook false table !! kListViewsExtensionName = Some cb_ListViews ∧
  RegisterHook false table !! kScreenshotExtensionName = Some cb_Screenshot ∧
  RegisterHook false table !! kScreenshotSkpExtensionName = Some cb_ScreenshotSkp ∧
  RegisterHook false table !! kRunInViewExtensionName = Some cb_RunInView ∧
  RegisterHook false table !! kFlushUIThreadTasksExtensionName
  = Some cb_FlushUIThreadTasks.
Proof.
  unfold RegisterHook, Dart_RegisterRootServiceRequestCallback. cbv zeta.
  repeat split;
    try (repeat first [rewrite lookup_insert_eq
                      | rewrite lookup_insert_ne by done
                      | rewrite lookup_empty];
         reflexivity).
  all: rewrite !dom_insert_L; apply set_eq; intros name;
       rewrite !elem_of_union, !elem_of_singleton; tauto.
Qed.

(* ===================================================================== *)
(** * Screenshots *)
(* ===================================================================== *)

(** The rasterizer taken is that of the first view. *)
Lemma GetRandomRasterizer_first (shell : Shell) :
  GetRandomRasterizer shell
  = match platform_views shell with
    | [] => None
    | view :: _ => GetWeakRasterizerPtr view
    end.
Proof.
  unfold GetRandomRasterizer, IteratePlatformViews.
  by destruct (platform_views shell).
Qed.

(** Without a rasterizer or without a last layer tree, the GPU task
    leaves the bitmap as it got it. *)
Lemma ScreenshotGpuTask_untouched (skia : Skia) (shell : Shell)
    (bitmap : SkBitmap) :
  platform_views shell = [] ∨
  GetRandomRasterizer shell = None ∨
  (∃ rasterizer, GetRandomRasterizer shell = Some rasterizer ∧
                 GetLastLayerTree rasterizer = None) →
  ScreenshotGpuTask skia shell bitmap = bitmap.
Proof.
  unfold ScreenshotGpuTask. rewrite GetRandomRasterizer_first.
  intros [-> | [-> | (rasterizer & -> & ->)]]; reflexivity.
Qed.

(** C4. When there is no view, no rasterizer behind the first view, or no
    last layer tree in that rasterizer, the bitmap stays unallocated; with
    a PNG encoder that yields nothing for such a bitmap, [Screenshot]
    answers with the ServerError response, code -32000 and message "can not
    encode screenshot", and returns false. *)
Theorem Screenshot_server_error (skia : Skia) (shell : Shell)
    (js : list string) :
  SkEncodeBitmap skia empty_bitmap = None →
  platform_views shell = [] ∨
  GetRandomRasterizer shell = None ∨
  (∃ rasterizer, GetRandomRasterizer shell = Some rasterizer ∧
                 GetLastLayerTree rasterizer = None) →
  Screenshot skia shell js
  = Ok (false, js ++ [lit "{'code':-32000,'message':'can not encode screenshot'}"]).
Proof.
  intros Hencode Hstate. unfold Screenshot, EncodeBitmapAsPNG. cbv zeta.
  by rewrite (ScreenshotGpuTask_untouched _ _ _ Hstate), Hencode.
Qed.

Lemma Screenshot_server_error_witness :
  Screenshot sample_skia (sample_shell []) []
  = Ok (false, [lit "{'code':-32000,'message':'can not encode screenshot'}"]) ∧
  Screenshot sample_skia (sample_shell [sample_view]) []
  = Ok (false, [lit "{'code':-32000,'message':'can not encode screenshot'}"]).
Proof.
  split.
  - apply (Screenshot_server_error sample_skia (sample_shell []) []);
      [reflexivity | left; reflexivity].
  - apply (Screenshot_server_error sample_skia (sample_shell [sample_view]) []);
      [reflexivity |].
    right; right. eexists. split; reflexivity.
Defined.

(** With a picture to serialize, [ScreenshotSkp] answers with its base64
    text. *)
Lemma ScreenshotSkp_response (skia : Skia) (shell : Shell) (js : list string)
    (picture : SkPicture) :
  ScreenshotSkpGpuTask shell = Some picture →
  ScreenshotSkp skia shell js
  = Ok (true,
        js ++ [lit "{'type':'ScreenshotSkp','skp':'"
               +:+ SkBase64_Encode skia (serialize skia picture)
               +:+ lit "'}"]).
Proof.
  intros Hpicture. unfold ScreenshotSkp. cbv zeta. rewrite Hpicture.
  unfold mbind, mret, Handler_bind, Handler_ret, lift, store_json.
  rewrite c_str_nul_free; [reflexivity |]. nul_free_parts.
Qed.

(** Without one, it goes through a null pointer. *)
Lemma ScreenshotSkp_no_picture (skia : Skia) (shell : Shell) (js : list string) :
  ScreenshotSkpGpuTask shell = None →
  ScreenshotSkp skia shell js = Fault null_dereference.
Proof. intros Hpicture. unfold ScreenshotSkp. cbv zeta. by rewrite Hpicture. Qed.

(** C3, on the code. When the GPU task has no picture to give (no view,
    or a first view whose rasterizer has no last layer tree),
    [ScreenshotSkp] dereferences the null pointer it got: it stores no
    response and does not return. *)
Theorem ScreenshotSkp_null_picture (skia : Skia) (js : list string) :
  ScreenshotSkp skia (sample_shell []) js = Fault null_dereference ∧
  ScreenshotSkp skia (sample_shell [sample_view]) js = Fault null_dereference.
Proof. split; reflexivity. Qed.

(* ===================================================================== *)
(** * Further properties: parameter lookup *)
(* ===================================================================== *)

(** What the loop of [KeyIndex] returned tells what it read. *)
Lemma KeyIndex_loop_inv (keys : list string) (key : string)
    (remaining start : nat) (index : Z) :
  KeyIndex_loop keys key (Z.of_nat start) remaining = Ok index →
  (index = -1 ∧
   ∀ j, (start ≤ j < start + remaining)%nat →
        ∃ k, keys !! j = Some k ∧ k ≠ key) ∨
  (Z.of_nat start ≤ index < Z.of_nat (start + remaining) ∧
   keys !! Z.to_nat index = Some key ∧
   ∀ j, (start ≤ j)%nat → Z.of_nat j < index →
        ∃ k, keys !! j = Some k ∧ k ≠ key).
Proof.
  revert start. induction remaining as [|remaining IH]; intros start; simpl.
  - intros [= <-]. left. split; [done |]. intros j Hj. lia.
  - unfold array_read.
    destruct (Z.ltb_spec (Z.of_nat start) 0) as [?|_]; [lia |].
    rewrite Nat2Z.id. destruct (keys !! start) as [k|] eqn:Hk; [|done].
    simpl. rewrite strcmp_eqb. case_bool_decide as Hkey.
    + intros [= <-]. right. subst k. rewrite Nat2Z.id.
      split; [lia |]. split; [done |]. intros j Hj1 Hj2. lia.
    + replace (Z.of_nat start + 1) with (Z.of_nat (S start)) by lia.
      intros Hloop. destruct (IH _ Hloop) as [[-> Hall] | (Hrange & Hat & Hbefore)].
      * left. split; [done |]. intros j Hj.
        destruct (decide (j = start)) as [->|]; [by exists k |].
        apply Hall. lia.
      * right. split; [lia |]. split; [done |]. intros j Hj1 Hj2.
        destruct (decide (j = start)) as [->|]; [by exists k |].
        apply Hbefore; lia.
Qed.

(** X1. An index that [KeyIndex] returns is within the count and holds the
    key, and no index before it does; when it returns -1, every one of the
    [num_params] keys was read and none is the key. *)
Theorem KeyIndex_sound (keys : list string) (num_params : Z) (key : string)
    (index : Z) :
  KeyIndex (Some keys) num_params key = Ok index →
  (index = -1 ∧
   ∀ j : nat, Z.of_nat j < num_params → ∃ k, keys !! j = Some k ∧ k ≠ key) ∨
  (0 ≤ index < num_params ∧
   keys !! Z.to_nat index = Some key ∧
   ∀ j : nat, Z.of_nat j < index → ∃ k, keys !! j = Some k ∧ k ≠ key).
Proof.
  intros Hindex.
  destruct (KeyIndex_loop_inv keys key (Z.to_nat num_params) 0 index Hindex)
    as [[-> Hall] | (Hrange & Hat & Hbefore)].
  - left. split; [done |]. intros j Hj. apply Hall. lia.
  - right. split; [lia |]. split; [done |]. intros j Hj. apply Hbefore; lia.
Qed.

Lemma KeyIndex_sound_witness :
  (2 = -1 ∧
   ∀ j : nat, Z.of_nat j < 3 →
     ∃ k, ["a"; "b"; "viewId"]%string !! j = Some k ∧ k ≠ "viewId"%string) ∨
  (0 ≤ 2 < 3 ∧
   ["a"; "b"; "viewId"]%string !! Z.to_nat 2 = Some "viewId"%string ∧
   ∀ j : nat, Z.of_nat j < 2 →
     ∃ k, ["a"; "b"; "viewId"]%string !! j = Some k ∧ k ≠ "viewId"%string).
Proof.
  apply (KeyIndex_sound ["a"; "b"; "viewId"]%string 3 "viewId" 2).
  reflexivity.
Defined.

(** The loop reads the keys it goes through and no other. *)
Lemma KeyIndex_loop_ext (keys keys' : list string) (key : string)
    (remaining start : nat) :
  (∀ j, (start ≤ j < start + remaining)%nat → keys !! j = keys' !! j) →
  KeyIndex_loop keys key (Z.of_nat start) remaining
  = KeyIndex_loop keys' key (Z.of_nat start) remaining.
Proof.
  revert start. induction remaining as [|remaining IH]; intros start Hsame;
    [done |].
  simpl. unfold array_read.
  destruct (Z.ltb_spec (Z.of_nat start) 0) as [?|_]; [lia |].
  rewrite Nat2Z.id, <- (Hsame start) by lia.
  destruct (keys !! start) as [k|]; [|done]. simpl.
  destruct (strcmp k key =? 0); [done |].
  replace (Z.of_nat start + 1) with (Z.of_nat (S start)) by lia.
  apply IH. intros j Hj. apply Hsame. lia.
Qed.

(** X2. A lookup depends on the first [num_params] entries of the two
    arrays only: what the arrays hold from index [num_params] on is never
    read. In particular a count of zero or less gives NULL whatever the
    arrays hold. *)
Theorem ValueForKey_within_count (keys : list string)
    (param_values : list string) (num_params : Z) (key : string) :
  ValueForKey (Some keys) param_values num_params key
  = ValueForKey (Some (take (Z.to_nat num_params) keys))
      (take (Z.to_nat num_params) param_values) num_params key ∧
  (num_params ≤ 0 →
   ValueForKey (Some keys) param_values num_params key = Ok None).
Proof.
  split.
  - unfold ValueForKey.
    assert (Hkeys : KeyIndex (Some (take (Z.to_nat num_params) keys))
                      num_params key
                    = KeyIndex (Some keys) num_params key).
    { apply (KeyIndex_loop_ext _ _ key (Z.to_nat num_params) 0).
      intros j Hj. apply lookup_take_lt. lia. }
    rewrite Hkeys.
    destruct (KeyIndex (Some keys) num_params key) as [index|f] eqn:Hindex;
      [|done].
    simpl. destruct (Z.ltb_spec index 0) as [?|Hpos]; [done |].
    destruct (KeyIndex_loop_inv keys key (Z.to_nat num_params) 0 index Hindex)
      as [[-> _] | (Hrange & _)]; [lia |].
    unfold array_read. destruct (Z.ltb_spec index 0) as [?|_]; [lia |].
    rewrite lookup_take_lt by lia. done.
  - intros Hcount. unfold ValueForKey, KeyIndex.
    by replace (Z.to_nat num_params) with 0%nat by lia.
Qed.

Lemma ValueForKey_within_count_witness :
  ValueForKey (Some ["viewId"]%string) ["0x1"]%string 0 "viewId" = Ok None.
Proof.
  apply (ValueForKey_within_count ["viewId"]%string ["0x1"]%string 0 "viewId").
  lia.
Defined.

(* ===================================================================== *)
(** * Further properties: view ids *)
(* ===================================================================== *)

Lemma advance_append (p s : string) : advance (String.length p) (p +:+ s) = s.
Proof. induction p as [|c p IH]; [by destruct s | exact IH]. Qed.

Lemma prefix_append (p s : string) : String.prefix p (p +:+ s) = true.
Proof.
  induction p as [|c p IH]; [by destruct s |].
  rewrite append_cons. simpl. by destruct (ascii_dec c c).
Qed.

(** X3. The prefix test of [RunInView] passes exactly on the strings that
    are the view-id prefix followed by something, and what [std::stoull] is
    then given is that something. *)
Theorem view_id_prefix_test (view_id : string) :
  (strncmp view_id kViewIdPrefx kViewIdPrefxLength = 0
   ↔ ∃ rest, view_id = kViewIdPrefx +:+ rest) ∧
  (∀ rest, advance kViewIdPrefxLength (kViewIdPrefx +:+ rest) = rest).
Proof.
  split; [| intros rest; apply advance_append].
  rewrite <- Z.eqb_eq, strncmp_prefix. unfold has_view_id_prefix. split.
  - intros Hprefix. eexists. by apply prefix_advance.
  - intros [rest ->]. apply prefix_append.
Qed.

(** The digits written in front of [acc] are those written in front of
    nothing, followed by [acc]. *)
Lemma hex_digits_acc (digits : nat) (n : N) (acc : string) :
  hex_digits digits n acc = hex_digits digits n EmptyString +:+ acc.
Proof.
  revert n acc. induction digits as [|digits IH]; intros n acc; [done |].
  cbn [hex_digits]. destruct (n / 16 =? 0)%N; [done |].
  rewrite (IH _ (String _ acc)), (IH _ (String _ EmptyString)).
  by rewrite append_assoc.
Qed.

Lemma scan_hex_ends_number (s : string) (count : nat) (acc : N) :
  ends_number s = true → scan_hex s count acc = (count, acc).
Proof. destruct s as [|c s]; [done |]. simpl. by destruct (hex_value c). Qed.

(** A handle written by [std::hex] after [0x] is read back by
    [std::stoull], whatever follows it that is no hexadecimal digit. *)
Lemma stoull_hex_then (n : N) (rest : string) :
  (n < 2 ^ 64)%N → ends_number rest = true →
  stoull ("0x" +:+ hex n +:+ rest) = Ok n.
Proof.
  intros Hn Hrest. unfold hex. rewrite <- hex_digits_acc.
  destruct (hex_digits_head 15 n rest) as (d & tail & Hd & Hhead).
  destruct (scan_hex_hex_digits 15 n rest) as [k Hk]; [exact Hn |].
  assert (Hskip : skip_0x ("0x" +:+ hex_digits 16 n rest) = hex_digits 16 n rest).
  { rewrite Hhead. rewrite !append_cons, append_empty_l.
    unfold skip_0x. cbn [Ascii.eqb Bool.eqb andb orb].
    by rewrite hex_value_hex_char. }
  assert (Hscan : scan_hex (skip_0x ("0x" +:+ hex_digits 16 n rest)) 0 0
                  = (S k, n)).
  { rewrite Hskip, Hk, scan_hex_ends_number by done. f_equal; lia. }
  remember (hex_digits 16 n rest) as h eqn:Eh. clear Eh Hhead Hskip Hk.
  change ("0x" +:+ h) with (String "0" (String "x" h)) in *.
  unfold stoull, strtoull16.
  cbn -[skip_0x scan_hex ULLONG_MAX N.ltb isspace].
  change (isspace "0") with false.
  cbn -[skip_0x scan_hex ULLONG_MAX N.ltb].
  rewrite Hscan. cbn -[ULLONG_MAX N.ltb].
  destruct (N.ltb_spec ULLONG_MAX n) as [Hmax|_]; [|done].
  unfold ULLONG_MAX in Hmax. lia.
Qed.

(** X4. What [std::stoull] converts fits the 64 bits of the handle. *)
Theorem stoull_fits (str : string) (handle : N) :
  stoull str = Ok handle → (handle < 2 ^ 64)%N.
Proof.
  unfold stoull, strtoull16.
  destruct (match skip_spaces str with
            | String c s' =>
                if Ascii.eqb c "-" then (true, s')
                else if Ascii.eqb c "+" then (false, s') else (false, skip_spaces str)
            | EmptyString => (false, skip_spaces str)
            end) as [negative s2].
  destruct (scan_hex (skip_0x s2) 0 0) as [[|count] v]; [done |].
  destruct (N.ltb_spec ULLONG_MAX v) as [?|Hv]; [done |].
  cbn. intros [= <-]. destruct negative.
  - apply N.mod_lt. lia.
  - unfold ULLONG_MAX in Hv. lia.
Qed.

Lemma stoull_fits_witness : (18446744073709551615 < 2 ^ 64)%N.
Proof. apply (stoull_fits "-1" 18446744073709551615). reflexivity. Defined.

(** X5. Views of different handles get different descriptors: the handle
    can be read back from the descriptor. *)
Theorem view_descriptor_handle (view view' : PlatformView) :
  (view_address view < 2 ^ 64)%N → (view_address view' < 2 ^ 64)%N →
  view_address view ≠ view_address view' →
  view_descriptor view ≠ view_descriptor view'.
Proof.
  intros Hview Hview' Hdiffer.
  destruct (view_descriptor_id view) as [rest ->].
  destruct (view_descriptor_id view') as [rest' ->].
  intros Hsame. apply String.app_inj in Hsame.
  apply (f_equal (λ s, stoull ("0x" +:+ s))) in Hsame. cbv beta in Hsame.
  rewrite !stoull_hex_then in Hsame by (done || reflexivity). congruence.
Qed.

Lemma view_descriptor_handle_witness :
  view_descriptor sample_view ≠ view_descriptor sample_drawn_view.
Proof.
  apply (view_descriptor_handle sample_view sample_drawn_view);
    [reflexivity | reflexivity | discriminate].
Defined.

(* ===================================================================== *)
(** * Further properties: RunInView *)
(* ===================================================================== *)

(** Once the four parameters are there, the prefix in place and the
    handle converted, the shell's report decides the response. In the
    success response the id comes before anything that could hold a zero
    byte. *)
Lemma RunInView_asks_shell (shell : Shell)
    (param_keys : option (list string)) (param_values : list string)
    (num_params : Z) (js : list string)
    (view_id asset_directory main_script packages_file : string)
    (view_id_as_num : N) :
  ValueForKey param_keys param_values num_params "viewId" = Ok (Some view_id) →
  ValueForKey param_keys param_values num_params "assetDirectory"
  = Ok (Some asset_directory) →
  ValueForKey param_keys param_values num_params "mainScript"
  = Ok (Some main_script) →
  ValueForKey param_keys param_values num_params "packagesFile"
  = Ok (Some packages_file) →
  has_view_id_prefix view_id = true →
  stoull (advance kViewIdPrefxLength view_id) = Ok view_id_as_num →
  let out := RunInPlatformView shell view_id_as_num main_script packages_file
               asset_directory unset_result in
  RunInView shell param_keys param_values num_params js
  = if view_existed out then
      Ok (true,
          js ++ [lit "{'type':'Success','view':{'type':'FlutterView', 'id': '"
                 +:+ view_id_of view_id_as_num +:+ lit "'"
                 +:+ c_str (isolate_member (main_port out) (isolate_name out)
                            +:+ "}}")])
    else
      Ok (false,
          js ++ [c_str (lit "{'code':-32602,'message':'Invalid params','data': {'details': 'view not found: "
                        +:+ view_id +:+ lit "'}}")]).
Proof.
  intros Hv Ha Hm Hp Hprefix Hnum out.
  run_lookups. rewrite Hprefix, Hnum. cbn [negb].
  unfold RunInView_branch. fold out.
  destruct (view_existed out); cbn [negb]; [| apply ErrorUnknownView_run].
  rewrite (AppendFlutterView_stream (_ +:+ _)), AppendFlutterView_text.
  unfold mbind, mret, Handler_bind, Handler_ret, store_json.
  rewrite !append_assoc, append_empty_l.
  change (lit "{'type':'Success'," +:+ lit "'view':"
          +:+ lit "{'type':'FlutterView', 'id': '" +:+ ?rest)
    with (lit "{'type':'Success','view':{'type':'FlutterView', 'id': '"
          +:+ rest).
  rewrite <- (append_assoc (view_id_of _) (lit "'")).
  rewrite <- (append_assoc (lit "{'type':'Success','view':{'type':'FlutterView', 'id': '")).
  rewrite c_str_append by nul_free_parts.
  rewrite !append_assoc. reflexivity.
Qed.

(** X6. An id as [ListViews] gives it, handed back as [viewId] with the
    three script parameters, makes [RunInView] ask the shell for the very
    handle the id was written from; the success response carries the same
    id again, whatever the isolate name that follows it, up to whose first
    zero byte the response is stored, and the UnknownView response echoes
    the id. *)
Theorem RunInView_listed_id (shell : Shell)
    (param_keys : option (list string)) (param_values : list string)
    (num_params : Z) (js : list string) (view : PlatformView)
    (asset_directory main_script packages_file : string) :
  (view_address view < 2 ^ 64)%N →
  ValueForKey param_keys param_values num_params "viewId"
  = Ok (Some (view_id_of (view_address view))) →
  ValueForKey param_keys param_values num_params "assetDirectory"
  = Ok (Some asset_directory) →
  ValueForKey param_keys param_values num_params "mainScript"
  = Ok (Some main_script) →
  ValueForKey param_keys param_values num_params "packagesFile"
  = Ok (Some packages_file) →
  let out := RunInPlatformView shell (view_address view) main_script
               packages_file asset_directory unset_result in
  (∃ rest,
      view_descriptor view
      = lit "{'type':'FlutterView', 'id': '"
        +:+ view_id_of (view_address view) +:+ lit "'" +:+ rest) ∧
  RunInView shell param_keys param_values num_params js
  = if view_existed out then
      Ok (true,
          js ++ [lit "{'type':'Success','view':{'type':'FlutterView', 'id': '"
                 +:+ view_id_of (view_address view) +:+ lit "'"
                 +:+ c_str (isolate_member (main_port out) (isolate_name out)
                            +:+ "}}")])
    else
      Ok (false,
          js ++ [lit "{'code':-32602,'message':'Invalid params','data': {'details': 'view not found: "
                 +:+ view_id_of (view_address view) +:+ lit "'}}"]).
Proof.
  intros Hhandle Hv Ha Hm Hp out. split.
  - destruct (view_descriptor_id view) as [rest ->]. exists rest.
    unfold view_id_of. rewrite !append_assoc. reflexivity.
  - rewrite <- (c_str_nul_free (_ +:+ view_id_of _ +:+ lit "'}}"))
      by nul_free_parts.
    apply (RunInView_asks_shell shell _ _ _ js _ _ _ _ _ Hv Ha Hm Hp).
    + apply prefix_append.
    + unfold view_id_of, kViewIdPrefxLength. rewrite advance_append.
      rewrite <- (append_empty_r (hex _)). by apply stoull_hex_then.
Qed.

Lemma RunInView_listed_id_witness :
  RunInView (sample_shell [sample_view]) (Some run_script_keys)
    [view_id_of 48879; "assets"; "main.dart"; ".packages"]%string 4 []
  = Ok (true,
        [lit "{'type':'Success','view':{'type':'FlutterView', 'id': '_flutterView/0xbeef','isolate':{'type':'@Isolate','fixedId':true,'id':'isolates/77','name':'main','number':'77'}}}"]).
Proof.
  apply (RunInView_listed_id (sample_shell [sample_view])
           (Some run_script_keys)
           [view_id_of 48879; "assets"; "main.dart"; ".packages"]%string 4 []
           sample_view "assets" "main.dart" ".packages");
    reflexivity.
Defined.

(** X7. [RunInView] reads the handle up to the first character that is no
    hexadecimal digit and ignores what follows: such a [viewId] is not
    refused; the shell is asked for the handle in front, the success
    response names the view by its id proper, and the UnknownView response
    echoes the [viewId] as received, a C string. *)
Theorem RunInView_trailing_characters (shell : Shell)
    (param_keys : option (list string)) (param_values : list string)
    (num_params : Z) (js : list string) (handle : N)
    (trailing asset_directory main_script packages_file : string) :
  (handle < 2 ^ 64)%N →
  ends_number trailing = true →
  nul_free trailing = true →
  ValueForKey param_keys param_values num_params "viewId"
  = Ok (Some (view_id_of handle +:+ trailing)) →
  ValueForKey param_keys param_values num_params "assetDirectory"
  = Ok (Some asset_directory) →
  ValueForKey param_keys param_values num_params "mainScript"
  = Ok (Some main_script) →
  ValueForKey param_keys param_values num_params "packagesFile"
  = Ok (Some packages_file) →
  let out := RunInPlatformView shell handle main_script packages_file
               asset_directory unset_result in
  RunInView shell param_keys param_values num_params js
  = if view_existed out then
      Ok (true,
          js ++ [lit "{'type':'Success','view':{'type':'FlutterView', 'id': '"
                 +:+ view_id_of handle +:+ lit "'"
                 +:+ c_str (isolate_member (main_port out) (isolate_name out)
                            +:+ "}}")])
    else
      Ok (false,
          js ++ [lit "{'code':-32602,'message':'Invalid params','data': {'details': 'view not found: "
                 +:+ (view_id_of handle +:+ trailing) +:+ lit "'}}"]).
Proof.
  intros Hhandle Htrailing Hc_string Hv Ha Hm Hp out.
  rewrite <- (c_str_nul_free (_ +:+ (view_id_of _ +:+ trailing) +:+ lit "'}}"))
    by nul_free_parts.
  apply (RunInView_asks_shell shell _ _ _ js _ _ _ _ _ Hv Ha Hm Hp).
  - unfold view_id_of. rewrite append_assoc. apply prefix_append.
  - unfold view_id_of, kViewIdPrefxLength.
    rewrite append_assoc, advance_append, append_assoc.
    by apply stoull_hex_then.
Qed.

Lemma RunInView_trailing_characters_witness :
  RunInView (sample_shell [sample_view]) (Some run_script_keys)
    ["_flutterView/0xbeef?x=1"; "assets"; "main.dart"; ".packages"]%string 4 []
  = Ok (true,
        [lit "{'type':'Success','view':{'type':'FlutterView', 'id': '_flutterView/0xbeef','isolate':{'type':'@Isolate','fixedId':true,'id':'isolates/77','name':'main','number':'77'}}}"]).
Proof.
  apply (RunInView_trailing_characters (sample_shell [sample_view])
           (Some run_script_keys)
           ["_flutterView/0xbeef?x=1"; "assets"; "main.dart"; ".packages"]%string
           4 [] 48879 "?x=1" "assets" "main.dart" ".packages");
    reflexivity.
Defined.

(** X8. [RunInView] returns true only when the four parameters were
    there, the [viewId] had the prefix and a handle that converts, and the
    shell, asked for that handle with the three script locations, reported
    that the view existed. *)
Theorem RunInView_true_only_if_existed (shell : Shell)
    (param_keys : option (list string)) (param_values : list string)
    (num_params : Z) (js js' : list string) :
  RunInView shell param_keys param_values num_params js = Ok (true, js') →
  ∃ view_id asset_directory main_script packages_file view_id_as_num,
    ValueForKey param_keys param_values num_params "viewId"
    = Ok (Some view_id) ∧
    ValueForKey param_keys param_values num_params "assetDirectory"
    = Ok (Some asset_directory) ∧
    ValueForKey param_keys param_values num_params "mainScript"
    = Ok (Some main_script) ∧
    ValueForKey param_keys param_values num_params "packagesFile"
    = Ok (Some packages_file) ∧
    has_view_id_prefix view_id = true ∧
    stoull (advance kViewIdPrefxLength view_id) = Ok view_id_as_num ∧
    view_existed
      (RunInPlatformView shell view_id_as_num main_script packages_file
         asset_directory unset_result) = true.
Proof.
  unfold RunInView, RunInView_with.
  destruct (ValueForKey _ _ _ "viewId") as [view_id|]; [| done].
  destruct (ValueForKey _ _ _ "assetDirectory") as [asset|]; [| done].
  destruct (ValueForKey _ _ _ "mainScript") as [main|]; [| done].
  destruct (ValueForKey _ _ _ "packagesFile") as [packages|]; [| done].
  unfold mbind, Handler_bind, lift.
  destruct view_id as [view_id|]; [| done].
  rewrite strncmp_prefix.
  destruct (has_view_id_prefix view_id) eqn:Hprefix; cbn [negb];
    [| by rewrite ErrorBadParameter_run].
  destruct asset as [asset|]; [| done].
  destruct main as [main|]; [| done].
  destruct packages as [packages|]; [| done].
  destruct (stoull (advance kViewIdPrefxLength view_id)) as [h|] eqn:Hnum;
    [| done].
  unfold RunInView_branch.
  destruct (view_existed (RunInPlatformView shell h main packages asset
                            unset_result)) eqn:Hexisted; cbn [negb];
    [| by rewrite ErrorUnknownView_run].
  intros _. by exists view_id, asset, main, packages, h.
Qed.

Lemma RunInView_true_only_if_existed_witness :
  ∃ view_id asset_directory main_script packages_file view_id_as_num,
    ValueForKey (Some run_script_keys)
      ["_flutterView/0xbeef"; "assets"; "main.dart"; ".packages"]%string 4
      "viewId" = Ok (Some view_id) ∧
    ValueForKey (Some run_script_keys)
      ["_flutterView/0xbeef"; "assets"; "main.dart"; ".packages"]%string 4
      "assetDirectory" = Ok (Some asset_directory) ∧
    ValueForKey (Some run_script_keys)
      ["_flutterView/0xbeef"; "assets"; "main.dart"; ".packages"]%string 4
      "mainScript" = Ok (Some main_script) ∧
    ValueForKey (Some run_script_keys)
      ["_flutterView/0xbeef"; "assets"; "main.dart"; ".packages"]%string 4
      "packagesFile" = Ok (Some packages_file) ∧
    has_view_id_prefix view_id = true ∧
    stoull (advance kViewIdPrefxLength view_id) = Ok view_id_as_num ∧
    view_existed
      (RunInPlatformView (sample_shell [sample_view]) view_id_as_num
         main_script packages_file asset_directory unset_result) = true.
Proof.
  apply (RunInView_true_only_if_existed (sample_shell [sample_view])
           (Some run_script_keys)
           ["_flutterView/0xbeef"; "assets"; "main.dart"; ".packages"]%string
           4 []
           [lit "{'type':'Success','view':{'type':'FlutterView', 'id': '_flutterView/0xbeef','isolate':{'type':'@Isolate','fixedId':true,'id':'isolates/77','name':'main','number':'77'}}}"]).
  reflexivity.
Defined.

(** X9. Every response with which [RunInView] returns false is an
    invalid-params error, stored as a C string: code -32602, message
    "Invalid params" and a details text. With the [viewId] received a C
    string, one without a zero byte, the error is stored whole. *)
Theorem RunInView_error_shape (shell : Shell)
    (param_keys : option (list string)) (param_values : list string)
    (num_params : Z) (js js' : list string) :
  RunInView shell param_keys param_values num_params js = Ok (false, js') →
  ∃ details,
    js' = js ++ [c_str (lit "{'code':-32602,'message':'Invalid params','data': {'details': '"
                        +:+ details +:+ lit "'}}")] ∧
    ((∀ view_id,
         ValueForKey param_keys param_values num_params "viewId"
         = Ok (Some view_id) →
         nul_free view_id = true) →
     js' = js ++ [lit "{'code':-32602,'message':'Invalid params','data': {'details': '"
                  +:+ details +:+ lit "'}}"]).
Proof.
  assert (Hliteral : ∀ name,
            name ∈ run_script_keys →
            Ok (false,
                js ++ [c_str (lit "{'code':-32602,'message':'Invalid params','data': {'details': '"
                              +:+ name +:+ lit "'}}")])
            = Ok (false, js') →
            ∃ details,
              js' = js ++ [c_str (lit "{'code':-32602,'message':'Invalid params','data': {'details': '"
                                  +:+ details +:+ lit "'}}")] ∧
              ((∀ view_id,
                   ValueForKey param_keys param_values num_params "viewId"
                   = Ok (Some view_id) →
                   nul_free view_id = true) →
               js' = js ++ [lit "{'code':-32602,'message':'Invalid params','data': {'details': '"
                            +:+ details +:+ lit "'}}"])).
  { intros name Hname [= <-]. exists name. split; [reflexivity |]. intros _.
    unfold run_script_keys in Hname.
    repeat (apply elem_of_cons in Hname as [-> | Hname]; [reflexivity |]).
    by apply elem_of_nil in Hname. }
  assert (Hechoed : ∀ view_id told,
            ValueForKey param_keys param_values num_params "viewId"
            = Ok (Some view_id) →
            nul_free told = true →
            Ok (false,
                js ++ [c_str (lit "{'code':-32602,'message':'Invalid params','data': {'details': '"
                              +:+ (told +:+ view_id) +:+ lit "'}}")])
            = Ok (false, js') →
            ∃ details,
              js' = js ++ [c_str (lit "{'code':-32602,'message':'Invalid params','data': {'details': '"
                                  +:+ details +:+ lit "'}}")] ∧
              ((∀ view_id,
                   ValueForKey param_keys param_values num_params "viewId"
                   = Ok (Some view_id) →
                   nul_free view_id = true) →
               js' = js ++ [lit "{'code':-32602,'message':'Invalid params','data': {'details': '"
                            +:+ details +:+ lit "'}}"])).
  { intros view_id told Hv Htold [= <-]. exists (told +:+ view_id).
    split; [reflexivity |]. intros Hc_string. specialize (Hc_string _ Hv).
    rewrite c_str_nul_free; [reflexivity |]. nul_free_parts. }
  revert Hliteral Hechoed. unfold RunInView, RunInView_with, run_script_keys.
  destruct (ValueForKey _ _ _ "viewId") as [view_id|]; [| done].
  destruct (ValueForKey _ _ _ "assetDirectory") as [asset|]; [| done].
  destruct (ValueForKey _ _ _ "mainScript") as [main|]; [| done].
  destruct (ValueForKey _ _ _ "packagesFile") as [packages|]; [| done].
  unfold mbind, Handler_bind, lift. intros Hliteral Hechoed.
  destruct view_id as [view_id|];
    [| rewrite ErrorMissingParameter_run; apply Hliteral; set_solver].
  destruct (negb _).
  { rewrite ErrorBadParameter_run. intros Hstored.
    apply (Hechoed view_id "parameter: viewId has a bad value: " eq_refl eq_refl).
    rewrite append_assoc. exact Hstored. }
  destruct asset as [asset|];
    [| rewrite ErrorMissingParameter_run; apply Hliteral; set_solver].
  destruct main as [main|];
    [| rewrite ErrorMissingParameter_run; apply Hliteral; set_solver].
  destruct packages as [packages|];
    [| rewrite ErrorMissingParameter_run; apply Hliteral; set_solver].
  destruct (stoull _) as [h|]; [| done].
  unfold RunInView_branch. destruct (negb _); [| done].
  rewrite ErrorUnknownView_run. intros Hstored.
  apply (Hechoed view_id "view not found: " eq_refl eq_refl).
  rewrite append_assoc. exact Hstored.
Qed.

Lemma RunInView_error_shape_witness :
  ∃ details,
    [lit "{'code':-32602,'message':'Invalid params','data': {'details': 'viewId'}}"]
    = [] ++ [c_str (lit "{'code':-32602,'message':'Invalid params','data': {'details': '"
                    +:+ details +:+ lit "'}}")] ∧
    ((∀ view_id,
         ValueForKey None [] 0 "viewId" = Ok (Some view_id) →
         nul_free view_id = true) →
     [lit "{'code':-32602,'message':'Invalid params','data': {'details': 'viewId'}}"]
     = [] ++ [lit "{'code':-32602,'message':'Invalid params','data': {'details': '"
              +:+ details +:+ lit "'}}"]).
Proof.
  apply (RunInView_error_shape (sample_shell []) None [] 0 []).
  reflexivity.
Defined.

(* ===================================================================== *)
(** * Further properties: parameters as a finite map *)
(* ===================================================================== *)

Lemma result_bind_Ok {A B : Type} (a : A) (f : A → result B) :
  (Ok a ≫= f) = f a.
Proof. reflexivity. Qed.

(** The lookup over the pairs that follow the entries already passed. *)
Lemma ValueForKey_loop_list_to_map (params : list (string * string))
    (key : string) (keys_before values_before : list string) :
  length keys_before = length values_before →
  (index ← KeyIndex_loop (keys_before ++ params.*1) key
             (Z.of_nat (length keys_before)) (length params);
   if index <? 0 then Ok None
   else v ← array_read (values_before ++ params.*2) index; Ok (Some v))
  = Ok ((list_to_map params : gmap string string) !! key).
Proof.
  revert keys_before values_before.
  induction params as [|[k v] params IH]; intros keys_before values_before Hlen;
    [done |].
  cbn [length KeyIndex_loop fmap list_fmap fst snd list_to_map foldr].
  rewrite (array_read_lookup (keys_before ++ k :: params.*1)
             (length keys_before) k) by (by apply list_lookup_middle).
  rewrite result_bind_Ok, strcmp_eqb. case_bool_decide as Hkey.
  - subst k. rewrite lookup_insert_eq, result_bind_Ok.
    destruct (Z.ltb_spec (Z.of_nat (length keys_before)) 0) as [?|_]; [lia |].
    rewrite Hlen.
    rewrite (array_read_lookup (values_before ++ v :: params.*2)
               (length values_before) v) by (by apply list_lookup_middle).
    done.
  - rewrite lookup_insert_ne by done.
    specialize (IH (keys_before ++ [k]) (values_before ++ [v])).
    rewrite !length_app, <- !app_assoc in IH. cbn [length app] in IH.
    replace (Z.of_nat (length keys_before) + 1)
      with (Z.of_nat (length keys_before + 1)) by lia.
    apply IH. lia.
Qed.

Lemma ValueForKey_pairs (params : list (string * string)) (key : string) :
  ValueForKey (Some params.*1) params.*2 (Z.of_nat (length params)) key
  = Ok ((list_to_map params : gmap string string) !! key).
Proof.
  unfold ValueForKey, KeyIndex. rewrite Nat2Z.id.
  exact (ValueForKey_loop_list_to_map params key [] [] eq_refl).
Qed.

(** X10. The two arrays of a call made of key-value pairs behave as the
    finite map of those pairs in which the first of several pairs with one
    key stands: a lookup returns what that map holds for the key, so it
    returns NULL exactly for the keys no pair has, and a pair put in front
    decides the lookup of its key and of no other. *)
Theorem ValueForKey_list_to_map (params : list (string * string))
    (key : string) :
  ValueForKey (Some params.*1) params.*2 (Z.of_nat (length params)) key
  = Ok ((list_to_map params : gmap string string) !! key) ∧
  (ValueForKey (Some params.*1) params.*2 (Z.of_nat (length params)) key
   = Ok None ↔ key ∉ params.*1) ∧
  (∀ k v,
      ValueForKey (Some ((k, v) :: params).*1) ((k, v) :: params).*2
        (Z.of_nat (length ((k, v) :: params))) key
      = if decide (k = key) then Ok (Some v)
        else ValueForKey (Some params.*1) params.*2
               (Z.of_nat (length params)) key).
Proof.
  split; [apply ValueForKey_pairs |]. split.
  - rewrite ValueForKey_pairs.
    rewrite (not_elem_of_list_to_map (M:=gmap string) params key).
    split; [by intros [= ->] | by intros ->].
  - intros k v. rewrite !ValueForKey_pairs. cbn [list_to_map foldr fst snd].
    rewrite lookup_insert. by case_decide.
Qed.

(** The handler looks at its parameters through the four lookups only. *)
Lemma RunInView_lookups (shell : Shell)
    (param_keys param_keys' : option (list string))
    (param_values param_values' : list string) (num_params num_params' : Z)
    (js : list string) :
  (∀ key, ValueForKey param_keys param_values num_params key
          = ValueForKey param_keys' param_values' num_params' key) →
  RunInView shell param_keys param_values num_params js
  = RunInView shell param_keys' param_values' num_params' js.
Proof.
  intros Hsame. unfold RunInView, RunInView_with. by rewrite !Hsame.
Qed.

(** X11. The response of [RunInView] does not depend on the order in which
    the parameters come, as long as no key comes twice. *)
Theorem RunInView_parameter_order (shell : Shell)
    (params params' : list (string * string)) (js : list string) :
  NoDup params.*1 →
  params ≡ₚ params' →
  RunInView shell (Some params.*1) params.*2 (Z.of_nat (length params)) js
  = RunInView shell (Some params'.*1) params'.*2 (Z.of_nat (length params')) js.
Proof.
  intros Hnodup Hperm. apply RunInView_lookups. intros key.
  rewrite !ValueForKey_pairs.
  by rewrite (list_to_map_proper (M:=gmap string) params params' Hnodup Hperm).
Qed.

Lemma RunInView_parameter_order_witness :
  RunInView (sample_shell [sample_view])
    (Some ["viewId"; "assetDirectory"; "mainScript"; "packagesFile"]%string)
    ["_flutterView/0xbeef"; "assets"; "main.dart"; ".packages"]%string 4 []
  = RunInView (sample_shell [sample_view])
      (Some ["packagesFile"; "mainScript"; "assetDirectory"; "viewId"]%string)
      [".packages"; "main.dart"; "assets"; "_flutterView/0xbeef"]%string 4 [].
Proof.
  apply (RunInView_parameter_order (sample_shell [sample_view])
           [("viewId", "_flutterView/0xbeef"); ("assetDirectory", "assets");
            ("mainScript", "main.dart"); ("packagesFile", ".packages")]%string
           (reverse
              [("viewId", "_flutterView/0xbeef"); ("assetDirectory", "assets");
               ("mainScript", "main.dart"); ("packagesFile", ".packages")]%string)
           []).
  - apply (bool_decide_unpack _). reflexivity.
  - symmetry. apply reverse_Permutation.
Defined.

(* ===================================================================== *)
(** * Further properties: registration *)
(* ===================================================================== *)

(** The table after [RegisterHook], entry by entry. *)
Lemma RegisterHook_lookup (running_precompiled_code : bool)
    (table : gmap string ServiceRequestCallback) (name : string) :
  RegisterHook running_precompiled_code table !! name
  = if decide (name = kListViewsExtensionName) then Some cb_ListViews
    else if decide (name = kScreenshotExtensionName) then Some cb_Screenshot
    else if decide (name = kScreenshotSkpExtensionName) then Some cb_ScreenshotSkp
    else if running_precompiled_code then table !! name
    else if decide (name = kRunInViewExtensionName) then Some cb_RunInView
    else if decide (name = kFlushUIThreadTasksExtensionName)
         then Some cb_FlushUIThreadTasks
    else table !! name.
Proof.
  unfold RegisterHook, Dart_RegisterRootServiceRequestCallback. cbv zeta.
  destruct running_precompiled_code; rewrite !lookup_insert;
    repeat case_decide; subst; try done.
Qed.

(** X13. Registering twice is registering once, and registering for a
    debug build what was registered for precompiled code gives the table
    of a debug build. *)
Theorem RegisterHook_again (running_precompiled_code : bool)
    (table : gmap string ServiceRequestCallback) :
  RegisterHook running_precompiled_code
    (RegisterHook running_precompiled_code table)
  = RegisterHook running_precompiled_code table ∧
  RegisterHook false (RegisterHook true table) = RegisterHook false table ∧
  RegisterHook true (RegisterHook false table) = RegisterHook false table.
Proof.
  repeat split; apply map_eq; intros name; rewrite !RegisterHook_lookup;
    destruct running_precompiled_code; repeat case_decide; done.
Qed.

(** X14. [RegisterHook] touches no entry of the table but those of its
    own extension names: whatever else was registered stays as it was. *)
Theorem RegisterHook_other_names (running_precompiled_code : bool)
    (table : gmap string ServiceRequestCallback) (name : string) :
  name ∉ [kListViewsExtensionName; kScreenshotExtensionName;
          kScreenshotSkpExtensionName; kRunInViewExtensionName;
          kFlushUIThreadTasksExtensionName] →
  RegisterHook running_precompiled_code table !! name = table !! name.
Proof.
  rewrite !not_elem_of_cons. intros (? & ? & ? & ? & ? & _).
  rewrite RegisterHook_lookup.
  destruct running_precompiled_code; repeat case_decide; done.
Qed.

Lemma RegisterHook_other_names_witness :
  RegisterHook false {[ "ext.flutter.debugPaint"%string := cb_ListViews ]}
    !! "ext.flutter.debugPaint"%string
  = ({[ "ext.flutter.debugPaint"%string := cb_ListViews ]}
      : gmap string ServiceRequestCallback) !! "ext.flutter.debugPaint"%string.
Proof.
  apply (RegisterHook_other_names false).
  apply (bool_decide_unpack _). reflexivity.
Defined.

(* ===================================================================== *)
(** * Further properties: screenshots *)
(* ===================================================================== *)

(** X15. The screenshot handlers look at the first view only: the views
    after it, and what the shell would answer to [RunInPlatformView], make
    no difference to [Screenshot] and [ScreenshotSkp]. *)
Theorem Screenshot_first_view_only (skia : Skia) (view : PlatformView)
    (views views' : list PlatformView)
    (run run' : N → string → string → string → RunResult → RunResult)
    (js : list string) :
  Screenshot skia {| platform_views := view :: views;
                     RunInPlatformView := run |} js
  = Screenshot skia {| platform_views := view :: views';
                       RunInPlatformView := run' |} js ∧
  ScreenshotSkp skia {| platform_views := view :: views;
                        RunInPlatformView := run |} js
  = ScreenshotSkp skia {| platform_views := view :: views';
                          RunInPlatformView := run' |} js.
Proof. split; reflexivity. Qed.

(** X16. With a first view whose rasterizer has a last layer tree, pixels
    allocated at the frame size of that tree and a PNG encoder that yields
    data for the bitmap rastered from it, [Screenshot] returns true and
    stores the Screenshot object around the base64 text of that data. *)
Theorem Screenshot_response (skia : Skia) (shell : Shell) (js : list string)
    (view : PlatformView) (views : list PlatformView)
    (rasterizer : Rasterizer) (layer_tree : LayerTree)
    (png : list Byte.byte) :
  platform_views shell = view :: views →
  GetWeakRasterizerPtr view = Some rasterizer →
  GetLastLayerTree rasterizer = Some layer_tree →
  tryAllocN32Pixels skia (fst (frame_size layer_tree))
    (snd (frame_size layer_tree)) = true →
  SkEncodeBitmap skia
    (N32Pixels (fst (frame_size layer_tree)) (snd (frame_size layer_tree))
       (Some layer_tree)) = Some png →
  Screenshot skia shell js
  = Ok (true,
        js ++ [lit "{'type':'Screenshot','screenshot':'"
               +:+ SkBase64_Encode skia png +:+ lit "'}"]).
Proof.
  intros Hviews Hrasterizer Htree Halloc Hpng.
  unfold Screenshot, EncodeBitmapAsPNG, ScreenshotGpuTask. cbv zeta.
  rewrite GetRandomRasterizer_first, Hviews, Hrasterizer, Htree, Halloc.
  cbn [negb]. rewrite Hpng.
  unfold mbind, mret, Handler_bind, Handler_ret, store_json.
  rewrite c_str_nul_free; [reflexivity |]. nul_free_parts.
Qed.

Lemma Screenshot_response_witness :
  Screenshot sample_skia (sample_shell [sample_drawn_view; sample_view]) []
  = Ok (true, [lit "{'type':'Screenshot','screenshot':''}"]).
Proof.
  apply (Screenshot_response sample_skia
           (sample_shell [sample_drawn_view; sample_view]) []
           sample_drawn_view [sample_view]
           {| GetLastLayerTree := Some sample_tree |} sample_tree []);
    reflexivity.
Defined.

(** X17. When the pixels cannot be allocated the bitmap stays empty, and
    with a PNG encoder that yields nothing for an empty bitmap
    [Screenshot] answers with the ServerError response, although there is
    a layer tree to draw. *)
Theorem Screenshot_allocation_failure (skia : Skia) (shell : Shell)
    (js : list string) (rasterizer : Rasterizer) (layer_tree : LayerTree) :
  GetRandomRasterizer shell = Some rasterizer →
  GetLastLayerTree rasterizer = Some layer_tree →
  tryAllocN32Pixels skia (fst (frame_size layer_tree))
    (snd (frame_size layer_tree)) = false →
  SkEncodeBitmap skia empty_bitmap = None →
  Screenshot skia shell js
  = Ok (false, js ++ [lit "{'code':-32000,'message':'can not encode screenshot'}"]).
Proof.
  intros Hrasterizer Htree Halloc Hpng.
  unfold Screenshot, EncodeBitmapAsPNG, ScreenshotGpuTask. cbv zeta.
  rewrite Hrasterizer, Htree, Halloc. cbn [negb]. by rewrite Hpng.
Qed.

Lemma Screenshot_allocation_failure_witness :
  Screenshot sample_skia_no_memory (sample_shell [sample_drawn_view]) []
  = Ok (false, [lit "{'code':-32000,'message':'can not encode screenshot'}"]).
Proof.
  apply (Screenshot_allocation_failure sample_skia_no_memory
           (sample_shell [sample_drawn_view]) []
           {| GetLastLayerTree := Some sample_tree |} sample_tree);
    reflexivity.
Defined.

(** X18. With a first view whose rasterizer has a last layer tree,
    [ScreenshotSkp] returns true and stores the ScreenshotSkp object around
    the base64 text of the serialized recording of that tree, made within
    its frame size. *)
Theorem ScreenshotSkp_first_view (skia : Skia) (shell : Shell)
    (js : list string) (view : PlatformView) (views : list PlatformView)
    (rasterizer : Rasterizer) (layer_tree : LayerTree) :
  platform_views shell = view :: views →
  GetWeakRasterizerPtr view = Some rasterizer →
  GetLastLayerTree rasterizer = Some layer_tree →
  ScreenshotSkp skia shell js
  = Ok (true,
        js ++ [lit "{'type':'ScreenshotSkp','skp':'"
               +:+ SkBase64_Encode skia
                     (serialize skia
                        (recording (fst (frame_size layer_tree))
                           (snd (frame_size layer_tree)) layer_tree))
               +:+ lit "'}"]).
Proof.
  intros Hviews Hrasterizer Htree.
  apply ScreenshotSkp_response. unfold ScreenshotSkpGpuTask.
  by rewrite GetRandomRasterizer_first, Hviews, Hrasterizer, Htree.
Qed.

Lemma ScreenshotSkp_first_view_witness :
  ScreenshotSkp sample_skia (sample_shell [sample_drawn_view; sample_view]) []
  = Ok (true, [lit "{'type':'ScreenshotSkp','skp':''}"]).
Proof.
  apply (ScreenshotSkp_first_view sample_skia
           (sample_shell [sample_drawn_view; sample_view]) []
           sample_drawn_view [sample_view]
           {| GetLastLayerTree := Some sample_tree |} sample_tree);
    reflexivity.
Defined.

(* ===================================================================== *)
(** * Further properties: instances of the handler's outcomes *)
(* ===================================================================== *)

Lemma RunInView_success_witness :
  RunInView (sample_shell [sample_drawn_view]) (Some run_script_keys)
    ["_flutterView/1000"; "assets"; "main.dart"; ".packages"]%string 4 []
  = Ok (true,
        [lit "{'type':'Success','view':{'type':'FlutterView', 'id': '_flutterView/0x1000'}}"]).
Proof.
  apply (RunInView_success (sample_shell [sample_drawn_view])
           (Some run_script_keys)
           ["_flutterView/1000"; "assets"; "main.dart"; ".packages"]%string
           4 [] "_flutterView/1000" "assets" "main.dart" ".packages" 4096);
    reflexivity.
Defined.

Lemma RunInView_responds_witness :
  (∃ returned response,
      RunInView (sample_shell []) (Some ["viewId"]%string)
        ["_flutterView/0x1"]%string 1 []
      = Ok (returned, [] ++ [response])) ∨
  (∃ view_id f,
      ValueForKey (Some ["viewId"]%string) ["_flutterView/0x1"]%string 1
        "viewId" = Ok (Some view_id) ∧
      has_view_id_prefix view_id = true ∧
      stoull (advance kViewIdPrefxLength view_id) = Fault f ∧
      RunInView (sample_shell []) (Some ["viewId"]%string)
        ["_flutterView/0x1"]%string 1 [] = Fault f).
Proof.
  apply (RunInView_responds (sample_shell []) (Some ["viewId"]%string)
           ["_flutterView/0x1"]%string 1 []).
  simpl. lia.
Defined.
